(** * Item-quality update rules: the single-function version and its
      refactoring into named predicates

    Shallow embedding of
      - [src/samples/1-simple/a-single-function-predicate-complexity.ts]
        (module [Smelly]) and
      - [src/samples/1-simple/refactored-predicates.ts]
        (module [Refactored]).

    Both files declare the same [Item] interface and a procedure
    [updateItemQuality(item): void] that assigns to [item.quality] in
    place.  The procedure is embedded by explicit state passing: it takes
    the record on entry and returns the record on exit.

    Further down, the tennis predicates (module [Tennis], from
    [src/unnamed/part_001]) and the two versions of the order
    processing (module [Orders], from [src/unnamed/part_002]) are
    embedded the same way, each with its own conventions stated where
    it starts.

    The [number] fields [sellIn] and [quality] hold integers (the data
    model of the engine) and are embedded as [Z].  A [number] is a
    binary64 float: [<] and [>] are exact on every integer it can hold,
    while [+ 1] and [- 1] are exact on the safe integers only (magnitude
    below 2^53, [safeInteger]) and round beyond them.  Statements that
    give the exact value of a quality after an addition or subtraction
    therefore assume [safeInteger (quality item)]; the range [0,50] of
    the data model lies well inside it.  Strict string equality [===] is
    [String.eqb], [!==] its negation; [&&], [||] and [!] are [andb],
    [orb] and [negb] (no operand has an effect, so short-circuiting is
    not observable). *)

From Stdlib Require Import ZArith String Bool Lia.
From Stdlib Require Import List PrimFloat.
Import ListNotations.

Local Open Scope Z_scope.
Local Open Scope bool_scope.

(** ** Data model *)

Record Item : Type := mkItem {
  name    : string;
  sellIn  : Z;
  quality : Z
}.

(** [item.quality = q], the only assignment either file performs. *)
Definition set_quality (item : Item) (q : Z) : Item :=
  {| name := name item; sellIn := sellIn item; quality := q |}.

Definition AGED_BRIE : string := "Aged Brie"%string.
Definition BACKSTAGE : string :=
  "Backstage passes to a TAFKAL80ETC concert"%string.
Definition SULFURAS : string := "Sulfuras, Hand of Ragnaros"%string.

(** ** refactored-predicates.ts *)

Module Refactored.

Definition isAgedBrie (item : Item) : bool :=
  String.eqb (name item) AGED_BRIE.

Definition isBackstagePass (item : Item) : bool :=
  String.eqb (name item) BACKSTAGE.

Definition isSulfuras (item : Item) : bool :=
  String.eqb (name item) SULFURAS.

Definition isSpecialItem (item : Item) : bool :=
  isAgedBrie item || isBackstagePass item || isSulfuras item.

Definition hasQualityToDecrease (item : Item) : bool :=
  quality item >? 0.

Definition hasQualityToIncrease (item : Item) : bool :=
  quality item <? 50.

Definition hasExpired (item : Item) : bool :=
  sellIn item <? 0.

Definition shouldDecreaseQuality (item : Item) : bool :=
  negb (isSpecialItem item) && hasQualityToDecrease item.

Definition shouldIncreaseQuality (item : Item) : bool :=
  (isAgedBrie item || isBackstagePass item) && hasQualityToIncrease item.

Definition shouldIncreaseQualityMoreRapidly (item : Item) : bool :=
  isBackstagePass item
  && Bool.eqb (hasExpired item) false
  && hasQualityToIncrease item.

Definition shouldLoseAllQualityAfterEvent (item : Item) : bool :=
  isBackstagePass item && hasExpired item.

(** The four [if] statements run in sequence, each one reading the
    record as the previous ones left it. *)
Definition updateItemQuality (item : Item) : Item :=
  let item :=
    if shouldDecreaseQuality item
    then set_quality item (quality item - 1) else item in
  let item :=
    if shouldIncreaseQuality item
    then set_quality item (quality item + 1) else item in
  let item :=
    if shouldIncreaseQualityMoreRapidly item
    then set_quality item (quality item + 1) else item in
  let item :=
    if shouldLoseAllQualityAfterEvent item
    then set_quality item 0 else item in
  item.

End Refactored.

(** ** a-single-function-predicate-complexity.ts *)

Module Smelly.

Definition updateItemQuality (item : Item) : Item :=
  let item :=
    if (negb (String.eqb (name item) AGED_BRIE)
        && negb (String.eqb (name item) BACKSTAGE)
        && (quality item >? 0)
        && negb (String.eqb (name item) SULFURAS))
       || ((sellIn item <? 0)
           && negb (String.eqb (name item) AGED_BRIE)
           && negb (String.eqb (name item) BACKSTAGE)
           && (quality item >? 0))
    then set_quality item (quality item - 1) else item in
  let item :=
    if (String.eqb (name item) AGED_BRIE
        || String.eqb (name item) BACKSTAGE)
       && (quality item <? 50)
       && ((sellIn item >? 0) || String.eqb (name item) BACKSTAGE)
    then set_quality item (quality item + 1) else item in
  let item :=
    if String.eqb (name item) BACKSTAGE
       && (sellIn item <? 0)
       && (quality item >? 0)
    then set_quality item 0 else item in
  item.

End Smelly.

(** ** Sample records *)

Definition agedBrie (s q : Z) : Item := mkItem AGED_BRIE s q.
Definition backstagePass (s q : Z) : Item := mkItem BACKSTAGE s q.
Definition sulfuras (s q : Z) : Item := mkItem SULFURAS s q.
Definition normalItem (s q : Z) : Item := mkItem "Normal Item"%string s q.

(** [Number.MAX_SAFE_INTEGER], 2^53 - 1: up to this magnitude every
    integer is a binary64 value and [n + 1], [n - 1] are computed
    exactly. *)
Definition MAX_SAFE_INTEGER : Z := 9007199254740991.

(** [Number.isSafeInteger(n)] for an integer [n]. *)
Definition safeInteger (n : Z) : Prop :=
  - MAX_SAFE_INTEGER <= n <= MAX_SAFE_INTEGER.

(** Items of the generic category: no special name matches. *)
Definition isGeneric (item : Item) : bool :=
  negb (Refactored.isSpecialItem item).

(** The two procedures end with the same [quality]. *)
Definition sameQuality (item : Item) : Prop :=
  quality (Smelly.updateItemQuality item)
  = quality (Refactored.updateItemQuality item).

(** Where the two procedures agree, by category. *)
Definition agreementRegion (item : Item) : bool :=
  if Refactored.isAgedBrie item then
    (sellIn item >? 0) || (quality item >=? 50)
  else if Refactored.isBackstagePass item then
    if sellIn item <? 0 then quality item >=? -1 else quality item >=? 49
  else if Refactored.isSulfuras item then
    (sellIn item >=? 0) || (quality item <=? 0)
  else true.

(** ** Results of procedures that may throw *)

(** A call either returns a value or throws; [E] is the type of what is
    thrown. *)
Inductive Outcome (E A : Type) : Type :=
| Returned (a : A)
| Threw (e : E).

Arguments Returned {E A} a.
Arguments Threw {E A} e.

(** ** The tennis predicates

    Each smell of the file pairs a [_BadVersion] function with its
    rewrite.  A [score] is an integer [number], embedded as [Z]. *)

Module Tennis.

Record Player : Type := mkPlayer {
  name  : string;
  score : Z
}.

Record Game : Type := mkGame {
  player1 : Player;
  player2 : Player
}.

(** Smell 1 *)

Definition isGameNotOver_BadVersion (game : Game) : bool :=
  negb ((score (player1 game) <? 4) && (score (player2 game) <? 4)).

Definition isGameOver (game : Game) : bool :=
  (score (player1 game) >=? 4) || (score (player2 game) >=? 4).

Definition hasPlayerReachedGamePoint (game : Game) : bool :=
  (score (player1 game) >=? 4) || (score (player2 game) >=? 4).

(** Smell 2 *)

Definition canPlayerWin_BadVersion (game : Game) : bool :=
  negb ((score (player1 game) <? 3) && (score (player2 game) <? 3))
  && negb (score (player1 game) =? score (player2 game)).

Definition canPlayerWin (game : Game) : bool :=
  let bothPlayersHaveAtLeastThreePoints :=
    (score (player1 game) >=? 3) && (score (player2 game) >=? 3) in
  let playersAreNotTied :=
    negb (score (player1 game) =? score (player2 game)) in
  bothPlayersHaveAtLeastThreePoints && playersAreNotTied.

(** Smell 3 *)

Definition shouldPlayer1Win_BadVersion (game : Game) : bool :=
  ((score (player1 game) >? score (player2 game))
   && (score (player1 game) >=? 4))
  || ((score (player1 game) =? score (player2 game))
      && (score (player1 game) >=? 3))
  || ((score (player1 game) >? score (player2 game))
      && (score (player2 game) >=? 3)).

Definition isPlayer1AheadByAtLeastTwo (game : Game) : bool :=
  score (player1 game) - score (player2 game) >=? 2.

Definition isPlayer1AheadByOne (game : Game) : bool :=
  score (player1 game) - score (player2 game) =? 1.

Definition isPlayer1Ahead (game : Game) : bool :=
  score (player1 game) >? score (player2 game).

Definition areBothPlayersAtDeuce (game : Game) : bool :=
  (score (player1 game) >=? 3) && (score (player2 game) >=? 3)
  && (score (player1 game) =? score (player2 game)).

Definition shouldPlayer1Win (game : Game) : bool :=
  let player1HasWon := isPlayer1AheadByAtLeastTwo game in
  let player1IsInAdvantage :=
    areBothPlayersAtDeuce game && isPlayer1Ahead game in
  player1HasWon || player1IsInAdvantage.

(** Smell 4 *)

Definition isValidScore_BadVersion (game : Game) : bool :=
  let isPlayer1ScoreValid :=
    (score (player1 game) >=? 0) && (score (player1 game) <=? 5) in
  let isPlayer2ScoreValid :=
    (score (player2 game) >=? 0) && (score (player2 game) <=? 5) in
  isPlayer1ScoreValid && isPlayer2ScoreValid.

Definition isValidScore (game : Game) : bool :=
  if (score (player1 game) <? 0) || (score (player1 game) >? 5)
  then false
  else (score (player2 game) >=? 0) && (score (player2 game) <=? 5).

Definition isScoreInValidRange (score : Z) : bool :=
  (score >=? 0) && (score <=? 5).

Definition areAllScoresValid (game : Game) : bool :=
  isScoreInValidRange (score (player1 game))
  && isScoreInValidRange (score (player2 game)).

(** Smell 5 *)

Definition getGameStatus_BadVersion (game : Game) : string :=
  if (score (player1 game) >=? 4)
     && (score (player1 game) - score (player2 game) >=? 2)
  then "Player 1 wins"%string
  else if (score (player1 game) >=? 3) && (score (player2 game) >=? 3)
          && (score (player1 game) =? score (player2 game))
  then "Deuce"%string
  else "Game in progress"%string.

Definition MINIMUM_SCORE_TO_WIN : Z := 4.
Definition MINIMUM_SCORE_FOR_DEUCE : Z := 3.
Definition WINNING_MARGIN : Z := 2.

Definition hasPlayer1Won (game : Game) : bool :=
  let hasReachedMinimumScore :=
    score (player1 game) >=? MINIMUM_SCORE_TO_WIN in
  let hasWinningMargin :=
    score (player1 game) - score (player2 game) >=? WINNING_MARGIN in
  hasReachedMinimumScore && hasWinningMargin.

Definition isDeuce (game : Game) : bool :=
  let bothAtMinimumScore :=
    (score (player1 game) >=? MINIMUM_SCORE_FOR_DEUCE)
    && (score (player2 game) >=? MINIMUM_SCORE_FOR_DEUCE) in
  let scoresAreEqual := score (player1 game) =? score (player2 game) in
  bothAtMinimumScore && scoresAreEqual.

Definition getGameStatus (game : Game) : string :=
  if hasPlayer1Won game then "Player 1 wins"%string
  else if isDeuce game then "Deuce"%string
  else "Game in progress"%string.

(** Smell 6 *)

Definition getScore_BadVersion (game : Game) : string :=
  if (score (player1 game) >=? 3) && (score (player2 game) >=? 3)
     && (score (player1 game) =? score (player2 game))
  then "Deuce"%string
  else if (score (player1 game) >=? 3) && (score (player2 game) >=? 3)
          && (score (player1 game) >? score (player2 game))
  then "Advantage Player 1"%string
  else if (score (player1 game) >=? 3) && (score (player2 game) >=? 3)
          && (score (player1 game) <? score (player2 game))
  then "Advantage Player 2"%string
  else "Regular score"%string.

Definition isInDeuceOrAdvantageZone (game : Game) : bool :=
  (score (player1 game) >=? MINIMUM_SCORE_FOR_DEUCE)
  && (score (player2 game) >=? MINIMUM_SCORE_FOR_DEUCE).

Definition getScore (game : Game) : string :=
  if negb (isInDeuceOrAdvantageZone game) then "Regular score"%string
  else if score (player1 game) =? score (player2 game)
  then "Deuce"%string
  else if score (player1 game) >? score (player2 game)
  then "Advantage Player 1"%string
  else "Advantage Player 2"%string.

(** Smell 7.  These functions test their argument and its two players
    for null before reading a score, so the argument is embedded with
    those three places nullable. *)

Record NullableGame : Type := mkNullableGame {
  player1_ref : option Player;
  player2_ref : option Player
}.

(** What is thrown: [new Error('Invalid game state')], or the
    [TypeError] of reading a property of null. *)
Inductive TennisError : Type :=
| InvalidGameState
| TypeError.

(** The game read through references that are all non-null. *)
Definition deref (game : option NullableGame) : option Game :=
  match game with
  | Some {| player1_ref := Some p1; player2_ref := Some p2 |} =>
      Some (mkGame p1 p2)
  | _ => None
  end.

Definition calculateWinner_BadVersion (game : option NullableGame)
  : string :=
  match game with
  | None => "Invalid game"%string
  | Some g =>
      match player1_ref g, player2_ref g with
      | Some p1, Some p2 =>
          if (score p1 <? 0) || (score p2 <? 0)
             || (score p1 >? 5) || (score p2 >? 5)
          then "Invalid game"%string
          else if (score p1 >=? 4) && (score p1 - score p2 >=? 2)
          then "Player 1 wins"%string
          else "Game in progress"%string
      | _, _ => "Invalid game"%string
      end
  end.

Definition isGameValid (game : option NullableGame) : bool :=
  match game with
  | None => false
  | Some g =>
      match player1_ref g, player2_ref g with
      | Some p1, Some p2 => areAllScoresValid (mkGame p1 p2)
      | _, _ => false
      end
  end.

Definition calculateWinner (game : option NullableGame)
  : Outcome TennisError string :=
  if negb (isGameValid game) then Threw InvalidGameState
  else
    match deref game with
    | None => Threw TypeError
    | Some g =>
        if hasPlayer1Won g then Returned "Player 1 wins"%string
        else Returned "Game in progress"%string
    end.

(** Smell 8 *)

Definition getGameState_BadVersion (game : Game) : string :=
  if score (player1 game) >=? 4 then
    if score (player1 game) - score (player2 game) >=? 2
    then "Player 1 wins"%string
    else if score (player1 game) - score (player2 game) =? 1
    then "Advantage Player 1"%string
    else "Game in progress"%string
  else if score (player2 game) >=? 4 then
    if score (player2 game) - score (player1 game) >=? 2
    then "Player 2 wins"%string
    else if score (player2 game) - score (player1 game) =? 1
    then "Advantage Player 2"%string
    else "Game in progress"%string
  else if (score (player1 game) >=? 3) && (score (player2 game) >=? 3)
  then
    if score (player1 game) =? score (player2 game)
    then "Deuce"%string
    else "Game in progress"%string
  else "Game in progress"%string.

Definition hasPlayer2Won (game : Game) : bool :=
  let hasReachedMinimumScore :=
    score (player2 game) >=? MINIMUM_SCORE_TO_WIN in
  let hasWinningMargin :=
    score (player2 game) - score (player1 game) >=? WINNING_MARGIN in
  hasReachedMinimumScore && hasWinningMargin.

Definition hasPlayer1Advantage (game : Game) : bool :=
  isInDeuceOrAdvantageZone game
  && (score (player1 game) >? score (player2 game)).

Definition hasPlayer2Advantage (game : Game) : bool :=
  isInDeuceOrAdvantageZone game
  && (score (player2 game) >? score (player1 game)).

Definition getGameState (game : Game) : string :=
  if hasPlayer1Won game then "Player 1 wins"%string
  else if hasPlayer2Won game then "Player 2 wins"%string
  else if isDeuce game then "Deuce"%string
  else if hasPlayer1Advantage game then "Advantage Player 1"%string
  else if hasPlayer2Advantage game then "Advantage Player 2"%string
  else "Game in progress"%string.

(** A game between two players with the given scores. *)
Definition gameAt (s1 s2 : Z) : Game :=
  mkGame (mkPlayer "Player 1"%string s1) (mkPlayer "Player 2"%string s2).

End Tennis.

(** ** Order processing

    The first version is one function; the rewrite splits it into nine.
    Both declare the same [User], [Product] and [Order] interfaces.

    - [id], [age] and [stock] are integer [number]s, embedded as [Z];
      [price], [totalAmount] and the discount percentage take part in
      [price * (1 - discountPercentage / 100)] and are binary64 floats,
      as every JavaScript [number] is.
    - The code tests [user], [products] and each [products[i]] for null
      and [product.id] for [undefined]; these four places are embedded
      as [option].  Reading a property of null throws a [TypeError].
    - [new Date()] and [Math.random()] read the environment; their
      results are arguments of the embedding ([Env]).  A [Date] is its
      time value.
    - [console.log] appends a line to the console.  A line is embedded
      as the template it is printed from, with the values that fill the
      template. *)

Module Orders.

Definition Date : Type := Z.

Inductive SubscriptionLevel : Type := free | premium | enterprise.

Definition SubscriptionLevel_eqb (a b : SubscriptionLevel) : bool :=
  match a, b with
  | free, free | premium, premium | enterprise, enterprise => true
  | _, _ => false
  end.

Inductive OrderStatus : Type := pending | confirmed | shipped | delivered.

Module User.
Record t : Type := mk {
  id : Z;
  name : string;
  email : string;
  age : Z;
  subscriptionLevel : SubscriptionLevel;
  lastLoginDate : Date
}.
End User.

Module Product.
Record t : Type := mk {
  id : option Z;
  name : string;
  price : PrimFloat.float;
  stock : Z
}.
End Product.

(** [Product[]], whose elements the code tests for null. *)
Definition ProductArray : Type := list (option Product.t).

Module Order.
Record t : Type := mk {
  userId : Z;
  products : ProductArray;
  totalAmount : PrimFloat.float;
  status : OrderStatus
}.
End Order.

(** What is thrown, by the message template of [new Error(...)]. *)
Inductive OrderError : Type :=
| InvalidUser                         (* 'Invalid user' *)
| NoProductsSelected                  (* 'No products selected' *)
| InvalidProductAtIndex (i : nat)     (* `Invalid product at index ${i}` *)
| ProductOutOfStock (name : string)   (* `Product ${product.name} is out of stock` *)
| NullReference.                      (* TypeError: property of null *)

(** The lines written by [console.log]. *)
Inductive LogLine : Type :=
| EmailTo (email : string)
| EmailSubject (orderNumber : PrimFloat.float)
| EmailBody (userName : string) (total : PrimFloat.float)
| SmsMessage (total : PrimFloat.float)
| AnalyticsLine (userId : Z) (total : PrimFloat.float).

Record Env : Type := mkEnv {
  random : PrimFloat.float;   (* what [Math.random()] returns *)
  now : Date                  (* what [new Date()] returns *)
}.

(** *** Procedures that write to the console and may throw *)

Definition M (A : Type) : Type :=
  list LogLine -> Outcome OrderError A * list LogLine.

Definition ret {A : Type} (a : A) : M A :=
  fun console => (Returned a, console).

Definition throw {A : Type} (e : OrderError) : M A :=
  fun console => (Threw e, console).

Definition bind {A B : Type} (m : M A) (k : A -> M B) : M B :=
  fun console =>
    match m console with
    | (Returned a, console') => k a console'
    | (Threw e, console') => (Threw e, console')
    end.

Definition consoleLog (line : LogLine) : M unit :=
  fun console => (Returned tt, console ++ [line]).

(** A call of a function that writes nothing. *)
Definition call {A : Type} (o : Outcome OrderError A) : M A :=
  fun console => (o, console).

(** Reading through a reference. *)
Definition deref {A : Type} (ref : option A) : M A :=
  match ref with
  | Some a => ret a
  | None => throw NullReference
  end.

Notation "x <- m ;; k" := (bind m (fun x => k))
  (at level 61, m at next level, right associativity).
Notation "m ;;; k" := (bind m (fun _ => k))
  (at level 61, right associativity).

(** [!user.id]: a number is falsy when it is 0. *)
Definition falsyNumber (n : Z) : bool := n =? 0.

(** [!user.email]: a string is falsy when it is empty. *)
Definition falsyString (s : string) : bool := String.eqb s EmptyString.

(** [price * (1 - discountPercentage / 100)] *)
Definition discountedPrice (price discountPercentage : PrimFloat.float)
  : PrimFloat.float :=
  PrimFloat.mul price
    (PrimFloat.sub 1%float (PrimFloat.div discountPercentage 100%float)).

(** *** The rewrite *)

Module Refactored.

Definition calculateDiscount (subscriptionLevel : SubscriptionLevel)
  : PrimFloat.float :=
  match subscriptionLevel with
  | free => 0%float
  | premium => 10%float
  | enterprise => 20%float
  end.

Definition validateUser (user : option User.t) : Outcome OrderError unit :=
  match user with
  | None => Threw InvalidUser
  | Some u =>
      if falsyNumber (User.id u) || falsyString (User.email u)
      then Threw InvalidUser
      else Returned tt
  end.

(** The [for] loop of [validateProducts], from index [i] on. *)
Fixpoint validateProductsFrom (i : nat) (products : ProductArray)
  : Outcome OrderError unit :=
  match products with
  | [] => Returned tt
  | None :: _ => Threw (InvalidProductAtIndex i)
  | Some product :: rest =>
      match Product.id product with
      | None => Threw (InvalidProductAtIndex i)
      | Some _ =>
          if Product.stock product <=? 0
          then Threw (ProductOutOfStock (Product.name product))
          else validateProductsFrom (S i) rest
      end
  end.

Definition validateProducts (products : option ProductArray)
  : Outcome OrderError unit :=
  match products with
  | None => Threw NoProductsSelected
  | Some ps =>
      if Nat.eqb (List.length ps) 0 then Threw NoProductsSelected
      else validateProductsFrom 0 ps
  end.

(** [products.reduce(callback, total)]; the callback reads
    [product.price]. *)
Fixpoint reduceTotal (discountPercentage : PrimFloat.float)
    (products : ProductArray) (total : PrimFloat.float)
  : Outcome OrderError PrimFloat.float :=
  match products with
  | [] => Returned total
  | None :: _ => Threw NullReference
  | Some product :: rest =>
      reduceTotal discountPercentage rest
        (PrimFloat.add total
           (discountedPrice (Product.price product) discountPercentage))
  end.

Definition calculateOrderTotal (products : ProductArray)
    (discountPercentage : PrimFloat.float)
  : Outcome OrderError PrimFloat.float :=
  reduceTotal discountPercentage products 0%float.

Definition createOrder (user : User.t) (products : ProductArray)
    (totalAmount : PrimFloat.float) : Order.t :=
  {| Order.userId := User.id user;
     Order.products := products;
     Order.totalAmount := totalAmount;
     Order.status := pending |}.

Definition sendEmailNotification (env : Env) (user : User.t)
    (order : Order.t) : M unit :=
  let emailSubject := EmailSubject (random env) in
  let emailBody := EmailBody (User.name user) (Order.totalAmount order) in
  consoleLog (EmailTo (User.email user)) ;;;
  consoleLog emailSubject ;;;
  consoleLog emailBody.

Definition sendSmsNotification (user : User.t) (order : Order.t) : M unit :=
  if SubscriptionLevel_eqb (User.subscriptionLevel user) premium
     || SubscriptionLevel_eqb (User.subscriptionLevel user) enterprise
  then
    let smsMessage := SmsMessage (Order.totalAmount order) in
    consoleLog smsMessage
  else ret tt.

Definition logOrderAnalytics (user : User.t) (order : Order.t) : M unit :=
  consoleLog (AnalyticsLine (User.id user) (Order.totalAmount order)).

(** [user.lastLoginDate = new Date()]: the user object after the
    assignment. *)
Definition updateUserLastLogin (env : Env) (user : User.t) : User.t :=
  {| User.id := User.id user;
     User.name := User.name user;
     User.email := User.email user;
     User.age := User.age user;
     User.subscriptionLevel := User.subscriptionLevel user;
     User.lastLoginDate := now env |}.

(** Returns the order together with the user object as the call leaves
    it. *)
Definition processUserOrderAndSendNotification (env : Env)
    (user : option User.t) (products : option ProductArray)
  : M (Order.t * User.t) :=
  call (validateUser user) ;;;
  call (validateProducts products) ;;;
  u <- deref user ;;
  ps <- deref products ;;
  let discountPercentage := calculateDiscount (User.subscriptionLevel u) in
  totalAmount <- call (calculateOrderTotal ps discountPercentage) ;;
  let order := createOrder u ps totalAmount in
  sendEmailNotification env u order ;;;
  sendSmsNotification u order ;;;
  logOrderAnalytics u order ;;;
  let u' := updateUserLastLogin env u in
  ret (order, u').

End Refactored.

(** *** The first version *)

Module Smelly.

(** The [for] loop: validation and summing interleaved, from index [i]
    with [totalAmount] so far. *)
Fixpoint productLoop (discountPercentage : PrimFloat.float) (i : nat)
    (products : ProductArray) (totalAmount : PrimFloat.float)
  : Outcome OrderError PrimFloat.float :=
  match products with
  | [] => Returned totalAmount
  | None :: _ => Threw (InvalidProductAtIndex i)
  | Some product :: rest =>
      match Product.id product with
      | None => Threw (InvalidProductAtIndex i)
      | Some _ =>
          if Product.stock product <=? 0
          then Threw (ProductOutOfStock (Product.name product))
          else
            productLoop discountPercentage (S i) rest
              (PrimFloat.add totalAmount
                 (discountedPrice (Product.price product)
                    discountPercentage))
      end
  end.

Definition processUserOrderAndSendNotification (env : Env)
    (user : option User.t) (products : option ProductArray)
  : M (Order.t * User.t) :=
  match user with
  | None => throw InvalidUser
  | Some u =>
      if falsyNumber (User.id u) || falsyString (User.email u)
      then throw InvalidUser
      else
        let discountPercentage :=
          if SubscriptionLevel_eqb (User.subscriptionLevel u) premium
          then 10%float
          else if SubscriptionLevel_eqb (User.subscriptionLevel u) enterprise
          then 20%float
          else 0%float in
        match products with
        | None => throw NoProductsSelected
        | Some ps =>
            if Nat.eqb (List.length ps) 0 then throw NoProductsSelected
            else
              totalAmount <-
                call (productLoop discountPercentage 0 ps 0%float) ;;
              let order :=
                {| Order.userId := User.id u;
                   Order.products := ps;
                   Order.totalAmount := totalAmount;
                   Order.status := pending |} in
              let emailSubject := EmailSubject (random env) in
              let emailBody := EmailBody (User.name u) totalAmount in
              consoleLog (EmailTo (User.email u)) ;;;
              consoleLog emailSubject ;;;
              consoleLog emailBody ;;;
              (if SubscriptionLevel_eqb (User.subscriptionLevel u) premium
                  || SubscriptionLevel_eqb (User.subscriptionLevel u)
                       enterprise
               then
                 let smsMessage := SmsMessage totalAmount in
                 consoleLog smsMessage
               else ret tt) ;;;
              consoleLog (AnalyticsLine (User.id u) totalAmount) ;;;
              let u' :=
                {| User.id := User.id u;
                   User.name := User.name u;
                   User.email := User.email u;
                   User.age := User.age u;
                   User.subscriptionLevel := User.subscriptionLevel u;
                   User.lastLoginDate := now env |} in
              ret (order, u')
        end
  end.

End Smelly.

(** A product that passes validation: non-null, with an [id] and
    positive stock. *)
Definition inStock (p : option Product.t) : Prop :=
  exists product : Product.t,
    p = Some product
    /\ Product.id product <> None
    /\ 0 < Product.stock product.

(** A user that passes validation. *)
Definition validUser (user : option User.t) (u : User.t) : Prop :=
  user = Some u /\ User.id u <> 0 /\ User.email u <> EmptyString.

(** The lines a successful call writes, in order. *)
Definition orderLines (env : Env) (u : User.t) (total : PrimFloat.float)
  : list LogLine :=
  [EmailTo (User.email u); EmailSubject (random env);
   EmailBody (User.name u) total]
  ++ match User.subscriptionLevel u with
     | free => []
     | _ => [SmsMessage total]
     end
  ++ [AnalyticsLine (User.id u) total].

(** The non-null elements of an array. *)
Definition presentProducts (products : ProductArray) : list Product.t :=
  flat_map (fun p => match p with Some product => [product] | None => [] end)
    products.

(** The sum the loop computes: prices discounted one by one and added
    from the left, starting at [total]. *)
Definition sumDiscounted (discountPercentage : PrimFloat.float)
    (products : list Product.t) (total : PrimFloat.float)
  : PrimFloat.float :=
  fold_left
    (fun total product =>
       PrimFloat.add total
         (discountedPrice (Product.price product) discountPercentage))
    products total.

(** Sample data. *)
Definition sampleEnv : Env := mkEnv 0.5%float 1700000000000.
Definition alice (level : SubscriptionLevel) : User.t :=
  User.mk 1 "Alice"%string "alice@example.org"%string 30 level 0.
Definition tea : Product.t := Product.mk (Some 7) "tea"%string 10%float 2.
Definition cup : Product.t := Product.mk (Some 8) "cup"%string 20%float 1.

End Orders.

(** ** Proof support *)

Ltac unfold_rules :=
  unfold sameQuality, agreementRegion, isGeneric,
    Refactored.updateItemQuality, Smelly.updateItemQuality,
    Refactored.shouldDecreaseQuality, Refactored.shouldIncreaseQuality,
    Refactored.shouldIncreaseQualityMoreRapidly,
    Refactored.shouldLoseAllQualityAfterEvent,
    Refactored.isSpecialItem, Refactored.hasQualityToDecrease,
    Refactored.hasQualityToIncrease, Refactored.hasExpired,
    Refactored.isAgedBrie, Refactored.isBackstagePass,
    Refactored.isSulfuras, set_quality in *;
  cbn [name sellIn quality] in *.

(** Case analysis on the three name tests of a record's name [n]; the
    combinations in which two different names match are contradictory. *)
Ltac name_cases n :=
  let Hb := fresh "Hbrie" in
  let Hp := fresh "Hpass" in
  let Hs := fresh "Hsulf" in
  destruct (String.eqb n AGED_BRIE) eqn:Hb;
  destruct (String.eqb n BACKSTAGE) eqn:Hp;
  destruct (String.eqb n SULFURAS) eqn:Hs;
  try (exfalso;
       repeat match goal with
              | H : String.eqb _ _ = true |- _ => apply String.eqb_eq in H
              end;
       subst; discriminate).

Ltac reduce_rules :=
  cbn [negb andb orb Bool.eqb name sellIn quality];
  repeat match goal with
         | H : String.eqb _ _ = _ |- _ => rewrite H
         end;
  cbn [negb andb orb Bool.eqb name sellIn quality].

(** Case analysis on the integer comparisons of the goal, in the order
    in which the statements evaluate them: a comparison is split once
    its operands no longer depend on an undecided branch. *)
Ltac z_cases :=
  rewrite ?Z.gtb_ltb, ?Z.geb_leb;
  repeat (reduce_rules;
          match goal with
          | |- context [?a <? ?b] =>
              lazymatch a with
              | context [match _ with _ => _ end] => fail
              | _ => lazymatch b with
                     | context [match _ with _ => _ end] => fail
                     | _ => destruct (Z.ltb_spec a b)
                     end
              end
          | |- context [?a <=? ?b] =>
              lazymatch a with
              | context [match _ with _ => _ end] => fail
              | _ => lazymatch b with
                     | context [match _ with _ => _ end] => fail
                     | _ => destruct (Z.leb_spec a b)
                     end
              end
          end);
  reduce_rules.

Ltac rules_by_cases :=
  let n := fresh "n" in let s := fresh "s" in let q := fresh "q" in
  intros [n s q]; unfold_rules; name_cases n; z_cases;
  intros; repeat split; intros; try discriminate; try congruence; try lia.

(** ** Category facts *)

Lemma isAgedBrie_name (item : Item) :
  Refactored.isAgedBrie item = true <-> name item = AGED_BRIE.
Proof. apply String.eqb_eq. Qed.

Lemma isBackstagePass_name (item : Item) :
  Refactored.isBackstagePass item = true <-> name item = BACKSTAGE.
Proof. apply String.eqb_eq. Qed.

Lemma isSulfuras_name (item : Item) :
  Refactored.isSulfuras item = true <-> name item = SULFURAS.
Proof. apply String.eqb_eq. Qed.

Lemma isGeneric_names (item : Item) :
  isGeneric item = true <->
  name item <> AGED_BRIE /\ name item <> BACKSTAGE /\ name item <> SULFURAS.
Proof.
  revert item. rules_by_cases.
  all: repeat match goal with
         | H : String.eqb _ _ = true |- _ => apply String.eqb_eq in H
         | H : String.eqb _ _ = false |- _ => apply String.eqb_neq in H
         end; intuition congruence.
Qed.

(** The categories are mutually exclusive: at most one name test holds. *)
Lemma categories_exclusive (item : Item) :
  (Refactored.isAgedBrie item = true ->
     Refactored.isBackstagePass item = false
     /\ Refactored.isSulfuras item = false)
  /\ (Refactored.isBackstagePass item = true ->
        Refactored.isSulfuras item = false).
Proof. revert item. rules_by_cases. Qed.

(** ** Frame: which fields an assignment to [quality] touches *)

Lemma set_quality_frame (c : bool) (item : Item) (q : Z) :
  name (if c then set_quality item q else item) = name item
  /\ sellIn (if c then set_quality item q else item) = sellIn item.
Proof. destruct c; split; reflexivity. Qed.

Lemma set_quality_name (c : bool) (item : Item) (q : Z) :
  name (if c then set_quality item q else item) = name item.
Proof. apply set_quality_frame. Qed.

Lemma set_quality_sellIn (c : bool) (item : Item) (q : Z) :
  sellIn (if c then set_quality item q else item) = sellIn item.
Proof. apply set_quality_frame. Qed.

(** A guarded assignment to [quality] keeps a property of the quality
    when the assigned value has it under the guard. *)
Lemma guarded_assignment (P : Z -> Prop) (c : bool) (item : Item) (q : Z) :
  P (quality item) ->
  (c = true -> P (quality item) -> P q) ->
  P (quality (if c then set_quality item q else item)).
Proof. intros HP Hq. destruct c; cbn; auto. Qed.

(** The range of the data model consists of safe integers. *)
Lemma contract_range_safe (q : Z) : 0 <= q <= 50 -> safeInteger q.
Proof. unfold safeInteger, MAX_SAFE_INTEGER. lia. Qed.

(** ** Closed forms of the final quality, by category

    These are equations of the embedding, with exact integer
    arithmetic; they describe the code where the quality is a safe
    integer. *)

Module RefactoredFacts.
Import Refactored.

(** What each rule guarantees about the quality it is about to change. *)

Lemma shouldDecreaseQuality_guard (item : Item) :
  shouldDecreaseQuality item = true -> 0 < quality item.
Proof.
  unfold shouldDecreaseQuality, hasQualityToDecrease.
  intros H. apply andb_prop in H. destruct H as [_ H].
  apply Z.gtb_lt. exact H.
Qed.

Lemma shouldIncreaseQuality_guard (item : Item) :
  shouldIncreaseQuality item = true -> quality item < 50.
Proof.
  unfold shouldIncreaseQuality, hasQualityToIncrease.
  intros H. apply andb_prop in H. destruct H as [_ H].
  apply Z.ltb_lt. exact H.
Qed.

Lemma shouldIncreaseQualityMoreRapidly_guard (item : Item) :
  shouldIncreaseQualityMoreRapidly item = true -> quality item < 50.
Proof.
  unfold shouldIncreaseQualityMoreRapidly, hasQualityToIncrease.
  intros H. apply andb_prop in H. destruct H as [_ H].
  apply Z.ltb_lt. exact H.
Qed.

Lemma generic_quality (item : Item) :
  isGeneric item = true ->
  quality (updateItemQuality item)
  = if quality item >? 0 then quality item - 1 else quality item.
Proof. revert item; rules_by_cases. Qed.

Lemma agedBrie_quality (item : Item) :
  isAgedBrie item = true ->
  quality (updateItemQuality item)
  = if quality item <? 50 then quality item + 1 else quality item.
Proof. revert item; rules_by_cases. Qed.

Lemma pending_pass_quality (item : Item) :
  isBackstagePass item = true ->
  0 <= sellIn item ->
  quality (updateItemQuality item)
  = if quality item <? 49 then quality item + 2
    else if quality item <? 50 then quality item + 1
    else quality item.
Proof. revert item; rules_by_cases. Qed.

Lemma expired_pass_quality (item : Item) :
  isBackstagePass item = true ->
  sellIn item < 0 ->
  quality (updateItemQuality item) = 0.
Proof. revert item; rules_by_cases. Qed.

Lemma sulfuras_quality (item : Item) :
  isSulfuras item = true ->
  quality (updateItemQuality item) = quality item.
Proof. revert item; rules_by_cases. Qed.

End RefactoredFacts.

Module SmellyFacts.
Import Refactored.

Lemma smelly_generic_quality (item : Item) :
  isGeneric item = true ->
  quality (Smelly.updateItemQuality item)
  = if quality item >? 0 then quality item - 1 else quality item.
Proof. revert item; rules_by_cases. Qed.

(** The increase is guarded by [sellIn > 0] for Aged Brie. *)
Lemma smelly_agedBrie_quality (item : Item) :
  isAgedBrie item = true ->
  quality (Smelly.updateItemQuality item)
  = if (quality item <? 50) && (sellIn item >? 0)
    then quality item + 1 else quality item.
Proof. revert item; rules_by_cases. Qed.

(** One increase only, then the reset when expired and still positive. *)
Lemma smelly_pass_quality (item : Item) :
  isBackstagePass item = true ->
  quality (Smelly.updateItemQuality item)
  = let q' := if quality item <? 50 then quality item + 1
              else quality item in
    if (sellIn item <? 0) && (q' >? 0) then 0 else q'.
Proof. revert item; rules_by_cases. Qed.

(** The second disjunct of the first condition has no test on the
    Sulfuras name. *)
Lemma smelly_sulfuras_quality (item : Item) :
  isSulfuras item = true ->
  quality (Smelly.updateItemQuality item)
  = if (sellIn item <? 0) && (quality item >? 0)
    then quality item - 1 else quality item.
Proof. revert item; rules_by_cases. Qed.

End SmellyFacts.

(** ** Scenarios *)

Example brie_scenario :
  Refactored.updateItemQuality (agedBrie 2 0) = agedBrie 2 1.
Proof. reflexivity. Qed.

Example pass_ceiling_scenario :
  quality (Refactored.updateItemQuality (backstagePass 0 49)) = 50.
Proof. reflexivity. Qed.

Example pass_expired_scenario :
  quality (Refactored.updateItemQuality (backstagePass (-1) 30)) = 0.
Proof. reflexivity. Qed.

Example sulfuras_scenario :
  quality (Refactored.updateItemQuality (sulfuras (-5) 80)) = 80.
Proof. reflexivity. Qed.

Example normal_scenario :
  quality (Refactored.updateItemQuality (normalItem 5 0)) = 0.
Proof. reflexivity. Qed.

(** ** Properties of the refactored procedure *)

(** C1. For every item whose quality is in [0,50] on entry, one call of
    the refactored [updateItemQuality] leaves quality in [0,50]: the
    decrease never goes below 0, the two increases never go above 50. *)
Theorem quality_stays_in_range :
  forall item : Item,
    0 <= quality item <= 50 ->
    0 <= quality (Refactored.updateItemQuality item) <= 50.
Proof.
  intros item Hrange.
  unfold Refactored.updateItemQuality. cbv zeta.
  (* after the decrease *)
  set (item1 := if Refactored.shouldDecreaseQuality item then _ else _).
  assert (H1 : 0 <= quality item1 <= 50).
  { subst item1. apply guarded_assignment; [exact Hrange |].
    intros Hc _. apply RefactoredFacts.shouldDecreaseQuality_guard in Hc.
    lia. }
  clearbody item1.
  (* after the increase *)
  set (item2 := if Refactored.shouldIncreaseQuality item1 then _ else _).
  assert (H2 : 0 <= quality item2 <= 50).
  { subst item2. apply guarded_assignment; [exact H1 |].
    intros Hc _. apply RefactoredFacts.shouldIncreaseQuality_guard in Hc.
    lia. }
  clearbody item2.
  (* after the accelerated increase *)
  set (item3 :=
         if Refactored.shouldIncreaseQualityMoreRapidly item2
         then _ else _).
  assert (H3 : 0 <= quality item3 <= 50).
  { subst item3. apply guarded_assignment; [exact H2 |].
    intros Hc _.
    apply RefactoredFacts.shouldIncreaseQualityMoreRapidly_guard in Hc.
    lia. }
  clearbody item3.
  (* after the reset *)
  apply guarded_assignment; [exact H3 | intros _ _; lia].
Qed.

Lemma quality_stays_in_range_witness :
  0 <= quality (Refactored.updateItemQuality (backstagePass 3 49)) <= 50.
Proof.
  apply (quality_stays_in_range (backstagePass 3 49)). simpl. lia.
Defined.

(** C2. For every Backstage-pass item with [sellIn >= 0] (0 included)
    and [quality <= 48], a safe integer, one call of the refactored
    [updateItemQuality] increases quality by exactly 2; with
    [quality = 49] the result is exactly 50. *)
Theorem pending_pass_gains_two :
  forall item : Item,
    name item = BACKSTAGE ->
    0 <= sellIn item ->
    safeInteger (quality item) ->
    (quality item <= 48 ->
       quality (Refactored.updateItemQuality item) = quality item + 2)
    /\ (quality item = 49 ->
          quality (Refactored.updateItemQuality item) = 50).
Proof.
  intros item Hname Hsell _.
  apply isBackstagePass_name in Hname.
  rewrite (RefactoredFacts.pending_pass_quality item Hname Hsell).
  split; intros Hq.
  - destruct (Z.ltb_spec (quality item) 49); [reflexivity | exfalso; lia].
  - rewrite Hq. reflexivity.
Qed.

Lemma pending_pass_gains_two_witness :
  quality (Refactored.updateItemQuality (backstagePass 0 48)) = 48 + 2
  /\ quality (Refactored.updateItemQuality (backstagePass 0 49)) = 50.
Proof.
  split.
  - refine (proj1 (pending_pass_gains_two (backstagePass 0 48) _ _ _) _);
      [reflexivity | simpl; lia | unfold safeInteger, MAX_SAFE_INTEGER; simpl; lia
      | simpl; lia].
  - refine (proj2 (pending_pass_gains_two (backstagePass 0 49) _ _ _) _);
      [reflexivity | simpl; lia | unfold safeInteger, MAX_SAFE_INTEGER; simpl; lia
      | reflexivity].
Defined.

(** C3. For every Backstage-pass item with [sellIn < 0], one call of the
    refactored [updateItemQuality] leaves quality exactly 0, whatever the
    prior quality (in particular for every prior quality in [0,50]). *)
Theorem expired_pass_loses_all_quality :
  forall item : Item,
    name item = BACKSTAGE ->
    sellIn item < 0 ->
    quality (Refactored.updateItemQuality item) = 0.
Proof.
  intros item Hname Hsell.
  apply RefactoredFacts.expired_pass_quality; [| exact Hsell].
  apply isBackstagePass_name; exact Hname.
Qed.

Lemma expired_pass_loses_all_quality_witness :
  quality (Refactored.updateItemQuality (backstagePass (-1) 30)) = 0.
Proof.
  apply (expired_pass_loses_all_quality (backstagePass (-1) 30));
    [reflexivity | simpl; lia].
Defined.

(** C4. For every item named 'Aged Brie', every [sellIn] and every
    safe-integer quality: if [quality < 50], one call of the refactored
    [updateItemQuality] increases quality by exactly 1; if
    [quality = 50], it stays 50. *)
Theorem aged_brie_gains_one :
  forall item : Item,
    name item = AGED_BRIE ->
    safeInteger (quality item) ->
    (quality item < 50 ->
       quality (Refactored.updateItemQuality item) = quality item + 1)
    /\ (quality item = 50 ->
          quality (Refactored.updateItemQuality item) = 50).
Proof.
  intros item Hname _.
  apply isAgedBrie_name in Hname.
  rewrite (RefactoredFacts.agedBrie_quality item Hname).
  destruct (Z.ltb_spec (quality item) 50); split; intros; lia.
Qed.

Lemma aged_brie_gains_one_witness :
  quality (Refactored.updateItemQuality (agedBrie (-3) 10)) = 10 + 1
  /\ quality (Refactored.updateItemQuality (agedBrie 0 50)) = 50.
Proof.
  split.
  - refine (proj1 (aged_brie_gains_one (agedBrie (-3) 10) _ _) _);
      [reflexivity | unfold safeInteger, MAX_SAFE_INTEGER; simpl; lia | simpl; lia].
  - refine (proj2 (aged_brie_gains_one (agedBrie 0 50) _ _) _);
      [reflexivity | unfold safeInteger, MAX_SAFE_INTEGER; simpl; lia | reflexivity].
Defined.

(** C5. For every generic item (name different from the three special
    names), every [sellIn] and every safe-integer quality: if
    [quality > 0], one call of the refactored [updateItemQuality]
    decreases quality by exactly 1; if [quality = 0], it stays 0. *)
Theorem generic_item_loses_one :
  forall item : Item,
    name item <> AGED_BRIE ->
    name item <> BACKSTAGE ->
    name item <> SULFURAS ->
    safeInteger (quality item) ->
    (quality item > 0 ->
       quality (Refactored.updateItemQuality item) = quality item - 1)
    /\ (quality item = 0 ->
          quality (Refactored.updateItemQuality item) = 0).
Proof.
  intros item Hb Hp Hs _.
  assert (Hgen : isGeneric item = true)
    by (apply isGeneric_names; auto).
  rewrite (RefactoredFacts.generic_quality item Hgen), Z.gtb_ltb.
  destruct (Z.ltb_spec 0 (quality item)); split; intros; lia.
Qed.

Lemma generic_item_loses_one_witness :
  quality (Refactored.updateItemQuality (normalItem (-2) 7)) = 7 - 1
  /\ quality (Refactored.updateItemQuality (normalItem 5 0)) = 0.
Proof.
  split.
  - refine (proj1 (generic_item_loses_one (normalItem (-2) 7) _ _ _ _) _);
      [discriminate | discriminate | discriminate
      | unfold safeInteger, MAX_SAFE_INTEGER; simpl; lia | simpl; lia].
  - refine (proj2 (generic_item_loses_one (normalItem 5 0) _ _ _ _) _);
      [discriminate | discriminate | discriminate
      | unfold safeInteger, MAX_SAFE_INTEGER; simpl; lia | reflexivity].
Defined.

(** C10. For every item with [quality >= 0] on entry, with no upper
    bound assumed, one call of the refactored [updateItemQuality] yields
    [quality >= 0]. *)
Theorem quality_stays_nonnegative :
  forall item : Item,
    quality item >= 0 ->
    quality (Refactored.updateItemQuality item) >= 0.
Proof.
  intros item Hq.
  unfold Refactored.updateItemQuality. cbv zeta.
  repeat (apply guarded_assignment with (P := fun q => q >= 0);
          [| intros Hc Hprev; try lia]);
    [exact Hq |].
  apply RefactoredFacts.shouldDecreaseQuality_guard in Hc. lia.
Qed.

Lemma quality_stays_nonnegative_witness :
  quality (Refactored.updateItemQuality (normalItem 4 80)) >= 0.
Proof.
  apply (quality_stays_nonnegative (normalItem 4 80)). simpl. lia.
Defined.

(** ** The expired pass: which rules fire *)

(** C9, as stated, fails: an expired pass below 50 satisfies the
    increase rule. *)
Lemma expired_pass_increase_rule_fires :
  name (backstagePass (-1) 30) = BACKSTAGE
  /\ sellIn (backstagePass (-1) 30) < 0
  /\ Refactored.shouldIncreaseQuality (backstagePass (-1) 30) = true
  /\ ~ (Refactored.shouldIncreaseQuality (backstagePass (-1) 30) = false
        /\ Refactored.shouldIncreaseQualityMoreRapidly
             (backstagePass (-1) 30) = false).
Proof.
  repeat split; try reflexivity.
  intros [Hinc _]. vm_compute in Hinc. discriminate Hinc.
Qed.

(** C9, amended. For every Backstage-pass item with [sellIn < 0] the
    accelerated-increase rule does not fire, whatever the quality, so it
    never fires together with the collapse rule; the increase rule has
    no test on [sellIn] and fires exactly when [quality < 50]. *)
Theorem expired_pass_rules :
  forall item : Item,
    name item = BACKSTAGE ->
    sellIn item < 0 ->
    Refactored.shouldIncreaseQualityMoreRapidly item = false
    /\ Refactored.shouldLoseAllQualityAfterEvent item = true
    /\ (Refactored.shouldIncreaseQuality item = true <-> quality item < 50).
Proof.
  intros item Hname Hsell.
  apply isBackstagePass_name in Hname.
  assert (Hexp : Refactored.hasExpired item = true)
    by (apply Z.ltb_lt; exact Hsell).
  unfold Refactored.shouldIncreaseQualityMoreRapidly,
    Refactored.shouldLoseAllQualityAfterEvent,
    Refactored.shouldIncreaseQuality.
  rewrite Hname, Hexp, orb_true_r. cbn [andb Bool.eqb].
  repeat split; try apply Z.ltb_lt.
Qed.

Lemma expired_pass_rules_witness :
  Refactored.shouldIncreaseQualityMoreRapidly (backstagePass (-1) 30) = false
  /\ Refactored.shouldLoseAllQualityAfterEvent (backstagePass (-1) 30) = true
  /\ (Refactored.shouldIncreaseQuality (backstagePass (-1) 30) = true
      <-> quality (backstagePass (-1) 30) < 50).
Proof.
  apply (expired_pass_rules (backstagePass (-1) 30));
    [reflexivity | simpl; lia].
Defined.

(** ** Both procedures *)

(** C8. For every item, one call of [updateItemQuality] leaves [name]
    and [sellIn] unchanged, in the single-function version and in the
    refactored one: only [quality] is written. *)
Theorem only_quality_is_written :
  forall item : Item,
    (name (Smelly.updateItemQuality item) = name item
     /\ sellIn (Smelly.updateItemQuality item) = sellIn item)
    /\ (name (Refactored.updateItemQuality item) = name item
        /\ sellIn (Refactored.updateItemQuality item) = sellIn item).
Proof.
  intros item.
  unfold Smelly.updateItemQuality, Refactored.updateItemQuality.
  cbv zeta.
  rewrite !set_quality_name, !set_quality_sellIn.
  repeat split.
Qed.

(** C6, on the input where the single-function version departs from it:
    an expired Sulfuras of quality 80 ends at 79 there, and stays at 80
    in the refactored version. *)
Theorem sulfuras_expired_divergence :
  quality (Smelly.updateItemQuality (sulfuras (-5) 80)) = 79
  /\ quality (Refactored.updateItemQuality (sulfuras (-5) 80)) = 80.
Proof. split; reflexivity. Qed.

(** C7, as stated, fails: an Aged Brie whose [sellIn] is 0 keeps its
    quality in the single-function version and gains 1 in the refactored
    one. *)
Lemma implementations_differ_on_brie :
  quality (Smelly.updateItemQuality (agedBrie 0 10)) = 10
  /\ quality (Refactored.updateItemQuality (agedBrie 0 10)) = 11
  /\ ~ sameQuality (agedBrie 0 10).
Proof.
  repeat split. intros H. vm_compute in H. discriminate H.
Qed.

(** C7, amended. The two procedures end with the same quality on every
    generic item; on Aged Brie when [sellIn > 0] or [quality >= 50]; on
    a pass when [sellIn >= 0] and [quality >= 49], or [sellIn < 0] and
    [quality >= -1]; on Sulfuras when [sellIn >= 0] or [quality <= 0].
    On every item not named Sulfuras whose quality is a safe integer
    they end with the same quality in these cases only. *)
Theorem implementations_agree_on_region :
  forall item : Item,
    (agreementRegion item = true -> sameQuality item)
    /\ (name item <> SULFURAS ->
        safeInteger (quality item) ->
        sameQuality item -> agreementRegion item = true).
Proof.
  intros item; split.
  - revert item; rules_by_cases.
  - intros Hname. apply String.eqb_neq in Hname.
    revert item Hname; rules_by_cases.
Qed.

Lemma implementations_agree_on_region_witness :
  sameQuality (agedBrie 5 10)
  /\ agreementRegion (backstagePass 2 49) = true.
Proof.
  split.
  - refine (proj1 (implementations_agree_on_region (agedBrie 5 10)) _).
    reflexivity.
  - refine (proj2 (implementations_agree_on_region (backstagePass 2 49))
              _ _ _);
      [discriminate
      | unfold safeInteger, MAX_SAFE_INTEGER; simpl; lia
      | reflexivity].
Defined.


(** ** The tennis predicates: each rewrite against its first version *)

Module TennisFacts.
Import Tennis.

Ltac unfold_tennis :=
  unfold isGameNotOver_BadVersion, isGameOver, hasPlayerReachedGamePoint,
    canPlayerWin_BadVersion, canPlayerWin,
    shouldPlayer1Win_BadVersion, shouldPlayer1Win,
    isPlayer1AheadByAtLeastTwo, isPlayer1AheadByOne, isPlayer1Ahead,
    areBothPlayersAtDeuce,
    isValidScore_BadVersion, isValidScore, areAllScoresValid,
    isScoreInValidRange,
    getGameStatus_BadVersion, getGameStatus,
    getScore_BadVersion, getScore,
    getGameState_BadVersion, getGameState,
    hasPlayer1Won, hasPlayer2Won, isDeuce,
    hasPlayer1Advantage, hasPlayer2Advantage, isInDeuceOrAdvantageZone,
    MINIMUM_SCORE_TO_WIN, MINIMUM_SCORE_FOR_DEUCE, WINNING_MARGIN in *;
  cbn [score player1 player2] in *.

(** Splits the comparisons of the goal one after the other; a branch
    whose comparisons contradict each other is closed at once. *)
Ltac score_cases :=
  rewrite ?Z.gtb_ltb, ?Z.geb_leb;
  repeat (match goal with
          | |- context [Z.ltb ?a ?b] => destruct (Z.ltb_spec a b)
          | |- context [Z.leb ?a ?b] => destruct (Z.leb_spec a b)
          | |- context [Z.eqb ?a ?b] => destruct (Z.eqb_spec a b)
          end;
          try (exfalso; lia);
          cbn [negb andb orb]).

Ltac by_scores :=
  let n1 := fresh "n1" in let s1 := fresh "s1" in
  let n2 := fresh "n2" in let s2 := fresh "s2" in
  intros [[n1 s1] [n2 s2]]; unfold_tennis; score_cases;
  repeat split; intros;
  try reflexivity; try discriminate; try lia; try tauto.

Lemma areAllScoresValid_range (game : Game) :
  areAllScoresValid game = true <->
  0 <= score (player1 game) <= 5 /\ 0 <= score (player2 game) <= 5.
Proof. revert game. by_scores. Qed.

(** Smell 1: the function named "not over" answers whether the game is
    over. *)
Theorem game_over_versions_agree :
  forall game : Game,
    isGameNotOver_BadVersion game = isGameOver game
    /\ hasPlayerReachedGamePoint game = isGameOver game
    /\ (isGameOver game = true <->
        4 <= score (player1 game) \/ 4 <= score (player2 game)).
Proof. by_scores. Qed.

(** Smell 2: the rewrite asks both players to have three points, the
    first version only one of them. *)
Theorem canPlayerWin_versions :
  forall game : Game,
    (canPlayerWin game = true -> canPlayerWin_BadVersion game = true)
    /\ (canPlayerWin_BadVersion game = canPlayerWin game <->
        score (player1 game) = score (player2 game)
        \/ (3 <= score (player1 game) <-> 3 <= score (player2 game))).
Proof. by_scores. Qed.

Lemma canPlayerWin_versions_witness :
  canPlayerWin_BadVersion (gameAt 4 3) = true
  /\ canPlayerWin_BadVersion (gameAt 1 2) = canPlayerWin (gameAt 1 2).
Proof.
  split.
  - refine (proj1 (canPlayerWin_versions (gameAt 4 3)) _). reflexivity.
  - refine (proj2 (proj2 (canPlayerWin_versions (gameAt 1 2))) _).
    right. cbn. lia.
Defined.

(** Smell 3: in the rewrite the advantage clause can never hold (deuce
    needs equal scores, being ahead needs different ones), so the
    rewrite is the two-point lead alone. *)
Theorem shouldPlayer1Win_is_two_point_lead :
  forall game : Game,
    (areBothPlayersAtDeuce game && isPlayer1Ahead game) = false
    /\ shouldPlayer1Win game = isPlayer1AheadByAtLeastTwo game
    /\ (shouldPlayer1Win game = true <->
        score (player2 game) + 2 <= score (player1 game)).
Proof. by_scores. Qed.

(** Smell 3: at deuce the first version answers yes and the rewrite
    no. *)
Theorem shouldPlayer1Win_versions_differ_at_deuce :
  forall game : Game,
    areBothPlayersAtDeuce game = true ->
    shouldPlayer1Win_BadVersion game = true
    /\ shouldPlayer1Win game = false.
Proof. by_scores. Qed.

Lemma shouldPlayer1Win_versions_differ_at_deuce_witness :
  shouldPlayer1Win_BadVersion (gameAt 3 3) = true
  /\ shouldPlayer1Win (gameAt 3 3) = false.
Proof.
  apply (shouldPlayer1Win_versions_differ_at_deuce (gameAt 3 3)).
  reflexivity.
Defined.

(** Smell 4: the three score validations are the same predicate, true
    exactly when both scores are in [0,5]. *)
Theorem score_validations_agree :
  forall game : Game,
    isValidScore_BadVersion game = isValidScore game
    /\ areAllScoresValid game = isValidScore game
    /\ (isValidScore game = true <->
        0 <= score (player1 game) <= 5 /\ 0 <= score (player2 game) <= 5).
Proof. by_scores. Qed.

(** Smell 5: naming the constants did not change [getGameStatus]. *)
Theorem getGameStatus_versions_agree :
  forall game : Game,
    getGameStatus_BadVersion game = getGameStatus game.
Proof. by_scores. Qed.

(** Smell 6: the early-return [getScore] is the first version. *)
Theorem getScore_versions_agree :
  forall game : Game,
    getScore_BadVersion game = getScore game.
Proof. by_scores. Qed.

(** Smell 6: what each answer of [getScore] means for the scores. *)
Theorem getScore_answers :
  forall game : Game,
    (getScore game = "Regular score"%string <->
       score (player1 game) < 3 \/ score (player2 game) < 3)
    /\ (getScore game = "Deuce"%string <->
          3 <= score (player1 game)
          /\ score (player1 game) = score (player2 game))
    /\ (getScore game = "Advantage Player 1"%string <->
          3 <= score (player2 game) < score (player1 game))
    /\ (getScore game = "Advantage Player 2"%string <->
          3 <= score (player1 game) < score (player2 game)).
Proof. by_scores. Qed.

(** Smell 7: [calculateWinner] throws exactly where the first version
    answers 'Invalid game', and returns the first version's answer
    everywhere else; it never reads through a null reference. *)
Theorem calculateWinner_versions :
  forall game : option NullableGame,
    (isGameValid game = false ->
       calculateWinner game = Threw InvalidGameState
       /\ calculateWinner_BadVersion game = "Invalid game"%string)
    /\ (isGameValid game = true ->
          calculateWinner game = Returned (calculateWinner_BadVersion game)
          /\ calculateWinner_BadVersion game <> "Invalid game"%string).
Proof.
  intros [[[[n1 s1]|] [[n2 s2]|]]|];
    unfold calculateWinner, calculateWinner_BadVersion, isGameValid, deref;
    cbn [player1_ref player2_ref];
    try (split; intros H; [split; reflexivity | discriminate H]).
  unfold_tennis. score_cases.
  all: split; intros Hvalid; try discriminate Hvalid;
    split; try reflexivity; discriminate.
Qed.

Lemma calculateWinner_versions_witness :
  (calculateWinner None = Threw InvalidGameState
   /\ calculateWinner_BadVersion None = "Invalid game"%string)
  /\ calculateWinner
       (Some (mkNullableGame (Some (mkPlayer "A"%string 5))
                             (Some (mkPlayer "B"%string 3))))
     = Returned "Player 1 wins"%string.
Proof.
  split.
  - refine (proj1 (calculateWinner_versions None) _). reflexivity.
  - refine (proj1 (proj2 (calculateWinner_versions
              (Some (mkNullableGame (Some (mkPlayer "A"%string 5))
                                    (Some (mkPlayer "B"%string 3))))) _)).
    reflexivity.
Defined.

(** Smell 7: a game is valid exactly when nothing is null and both
    scores are in [0,5]. *)
Theorem isGameValid_iff :
  forall game : option NullableGame,
    isGameValid game = true <->
    exists g : Game,
      deref game = Some g
      /\ 0 <= score (player1 g) <= 5 /\ 0 <= score (player2 g) <= 5.
Proof.
  intros [[[p1|] [p2|]]|]; unfold isGameValid, deref;
    cbn [player1_ref player2_ref];
    try (split; [discriminate | intros (g & Hg & _); discriminate Hg]).
  rewrite areAllScoresValid_range. split.
  - intros Hs. exists (mkGame p1 p2). split; [reflexivity | exact Hs].
  - intros (g & Hg & Hs). injection Hg as <-. exact Hs.
Qed.

(** Smell 8: the flattened [getGameState] and the nested first version
    give the same answer except when player 1 has four points or more
    and player 2 is level or ahead, where the nested version stops at
    its first branch. *)
Theorem getGameState_versions_agree_iff :
  forall game : Game,
    getGameState_BadVersion game = getGameState game <->
    ~ (4 <= score (player1 game) <= score (player2 game)).
Proof. by_scores. Qed.

(** Smell 8: in that region the nested version always answers 'Game in
    progress', and the flattened one never does. *)
Theorem getGameState_nested_misses_player2 :
  forall game : Game,
    4 <= score (player1 game) <= score (player2 game) ->
    getGameState_BadVersion game = "Game in progress"%string
    /\ getGameState game <> "Game in progress"%string.
Proof. by_scores. Qed.

Lemma getGameState_nested_misses_player2_witness :
  getGameState_BadVersion (gameAt 4 6) = "Game in progress"%string
  /\ getGameState (gameAt 4 6) <> "Game in progress"%string.
Proof.
  apply (getGameState_nested_misses_player2 (gameAt 4 6)). cbn. lia.
Defined.

(** Smell 8: what each answer of the flattened [getGameState] means for
    the scores; an advantage is reported on a one-point lead only. *)
Theorem getGameState_answers :
  forall game : Game,
    (getGameState game = "Player 1 wins"%string <->
       4 <= score (player1 game)
       /\ score (player2 game) + 2 <= score (player1 game))
    /\ (getGameState game = "Player 2 wins"%string <->
          4 <= score (player2 game)
          /\ score (player1 game) + 2 <= score (player2 game))
    /\ (getGameState game = "Deuce"%string <->
          3 <= score (player1 game)
          /\ score (player1 game) = score (player2 game))
    /\ (getGameState game = "Advantage Player 1"%string <->
          3 <= score (player2 game)
          /\ score (player1 game) = score (player2 game) + 1)
    /\ (getGameState game = "Advantage Player 2"%string <->
          3 <= score (player1 game)
          /\ score (player2 game) = score (player1 game) + 1).
Proof. by_scores. Qed.

(** Smells 5 and 8: [getGameStatus] and [getGameState] agree on a win
    of player 1 and on deuce. *)
Theorem getGameStatus_within_getGameState :
  forall game : Game,
    getGameStatus game <> "Game in progress"%string ->
    getGameState game = getGameStatus game.
Proof. by_scores. all: congruence. Qed.

Lemma getGameStatus_within_getGameState_witness :
  getGameState (gameAt 5 3) = getGameStatus (gameAt 5 3).
Proof.
  apply (getGameStatus_within_getGameState (gameAt 5 3)). discriminate.
Defined.

End TennisFacts.

(** ** Order processing: validation, totals and the two versions *)

Module OrderFacts.
Import Orders.

(** *** Validation *)

Lemma validateUser_ok_iff (user : option User.t) :
  Refactored.validateUser user = Returned tt <->
  exists u : User.t, validUser user u.
Proof.
  unfold Refactored.validateUser, validUser, falsyNumber, falsyString.
  destruct user as [u|].
  - destruct (Z.eqb_spec (User.id u) 0) as [Hid|Hid];
      destruct (String.eqb_spec (User.email u) EmptyString) as [He|He];
      cbn [orb]; split; intros H;
      try discriminate H; try reflexivity;
      try (destruct H as (u' & Hu & Hid' & He'); injection Hu as <-;
           contradiction).
    exists u. auto.
  - split; [discriminate | intros (u' & Hu & _); discriminate Hu].
Qed.

Lemma validateUser_throws (user : option User.t) (e : OrderError) :
  Refactored.validateUser user = Threw e -> e = InvalidUser.
Proof.
  unfold Refactored.validateUser.
  destruct user as [u|];
    [destruct (falsyNumber (User.id u) || falsyString (User.email u)) |];
    intros H; try discriminate H; injection H as <-; reflexivity.
Qed.

Lemma inStock_cons_ok (product : Product.t) (k : Z) :
  Product.id product = Some k ->
  0 < Product.stock product ->
  inStock (Some product).
Proof.
  intros Hid Hs. exists product. rewrite Hid. repeat split; auto.
  discriminate.
Qed.

Lemma validateProductsFrom_ok_iff (products : ProductArray) :
  forall i : nat,
    Refactored.validateProductsFrom i products = Returned tt <->
    Forall inStock products.
Proof.
  induction products as [|p rest IH]; intros i; cbn.
  - split; auto.
  - destruct p as [product|].
    + destruct (Product.id product) as [k|] eqn:Hid.
      * destruct (Z.leb_spec (Product.stock product) 0) as [Hs|Hs].
        -- split; [discriminate |].
           intros H. inversion H as [|? ? (q & Hq & _ & Hpos) _]; subst.
           injection Hq as <-. lia.
        -- rewrite IH. split.
           ++ intros H. constructor; [| exact H].
              apply (inStock_cons_ok product k); assumption.
           ++ intros H. inversion H; assumption.
      * split; [discriminate |].
        intros H. inversion H as [|? ? (q & Hq & Hnone & _) _]; subst.
        injection Hq as <-. congruence.
    + split; [discriminate |].
      intros H. inversion H as [|? ? (q & Hq & _) _]; discriminate Hq.
Qed.

Lemma validateProducts_ok_iff_aux :
  forall products : option ProductArray,
    Refactored.validateProducts products = Returned tt <->
    exists ps : ProductArray,
      products = Some ps /\ ps <> [] /\ Forall inStock ps.
Proof.
  intros [ps|]; unfold Refactored.validateProducts.
  - destruct ps as [|p rest].
    + cbn. split; [discriminate |].
      intros (ps & Hps & Hne & _). injection Hps as <-. contradiction.
    + cbn [List.length Nat.eqb]. rewrite validateProductsFrom_ok_iff.
      split.
      * intros H. exists (p :: rest). repeat split; auto. discriminate.
      * intros (ps & Hps & _ & H). injection Hps as <-. exact H.
  - split; [discriminate | intros (ps & Hps & _); discriminate Hps].
Qed.

(** [validateProducts] returns normally exactly for a non-null,
    non-empty array whose elements are all non-null, have an id and are
    in stock. *)
Theorem validateProducts_ok_iff :
  forall products : option ProductArray,
    Refactored.validateProducts products = Returned tt <->
    exists ps : ProductArray,
      products = Some ps
      /\ ps <> []
      /\ (forall p : option Product.t, In p ps -> inStock p).
Proof.
  intros products. rewrite validateProducts_ok_iff_aux.
  split; intros (ps & Hps & Hne & Hall); exists ps; repeat split;
    try assumption; apply Forall_forall; exact Hall.
Qed.

Lemma validateProductsFrom_invalid_index (products : ProductArray) :
  forall i j : nat,
    Refactored.validateProductsFrom i products
    = Threw (InvalidProductAtIndex j) ->
    exists k : nat,
      j = (i + k)%nat
      /\ (nth_error products k = Some None
          \/ exists product : Product.t,
               nth_error products k = Some (Some product)
               /\ Product.id product = None)
      /\ Forall inStock (firstn k products).
Proof.
  induction products as [|p rest IH]; intros i j; cbn.
  - discriminate.
  - destruct p as [product|].
    + destruct (Product.id product) as [k|] eqn:Hid.
      * destruct (Z.leb_spec (Product.stock product) 0) as [Hs|Hs];
          [discriminate |].
        intros H. destruct (IH _ _ H) as (k' & -> & Hbad & Hok).
        exists (S k'). repeat split.
        -- lia.
        -- exact Hbad.
        -- cbn. constructor; [| exact Hok].
           apply (inStock_cons_ok product k); assumption.
      * intros H. injection H as <-. exists 0%nat. repeat split.
        -- lia.
        -- right. exists product. split; [reflexivity | exact Hid].
        -- constructor.
    + intros H. injection H as <-. exists 0%nat. repeat split.
      * lia.
      * left. reflexivity.
      * constructor.
Qed.

Lemma validateProductsFrom_out_of_stock (products : ProductArray) :
  forall (i : nat) (n : string),
    Refactored.validateProductsFrom i products
    = Threw (ProductOutOfStock n) ->
    exists (k : nat) (product : Product.t),
      nth_error products k = Some (Some product)
      /\ Product.name product = n
      /\ Product.id product <> None
      /\ Product.stock product <= 0
      /\ Forall inStock (firstn k products).
Proof.
  induction products as [|p rest IH]; intros i n; cbn.
  - discriminate.
  - destruct p as [product|]; [| discriminate].
    destruct (Product.id product) as [k|] eqn:Hid; [| discriminate].
    destruct (Z.leb_spec (Product.stock product) 0) as [Hs|Hs].
    + intros H. injection H as <-. exists 0%nat, product.
      rewrite Hid. repeat split; try discriminate; try assumption.
      constructor.
    + intros H. destruct (IH _ _ H) as (k' & q & Hq & Hn & Hi & Hst & Hok).
      exists (S k'), q. repeat split; try assumption.
      cbn. constructor; [| exact Hok].
      apply (inStock_cons_ok product k); assumption.
Qed.

(** the index in 'Invalid product at index i' is the first position
    that does not pass: the element there is null or has no id, and
    every element before it is valid and in stock. *)
Theorem validateProducts_reports_first_invalid :
  forall (products : option ProductArray) (i : nat),
    Refactored.validateProducts products
    = Threw (InvalidProductAtIndex i) ->
    exists ps : ProductArray,
      products = Some ps
      /\ (nth_error ps i = Some None
          \/ exists product : Product.t,
               nth_error ps i = Some (Some product)
               /\ Product.id product = None)
      /\ Forall inStock (firstn i ps).
Proof.
  intros [ps|] i; unfold Refactored.validateProducts; [| discriminate].
  destruct (Nat.eqb (List.length ps) 0); [discriminate |].
  intros H.
  destruct (validateProductsFrom_invalid_index ps 0 i H)
    as (k & -> & Hbad & Hok).
  exists ps. cbn [Nat.add]. auto.
Qed.

Lemma validateProducts_reports_first_invalid_witness :
  exists ps : ProductArray,
    Some [Some (Product.mk (Some 7) "tea"%string 3%float 2); None]
    = Some ps
    /\ (nth_error ps 1 = Some None
        \/ exists product : Product.t,
             nth_error ps 1 = Some (Some product)
             /\ Product.id product = None)
    /\ Forall inStock (firstn 1 ps).
Proof.
  apply (validateProducts_reports_first_invalid
           (Some [Some (Product.mk (Some 7) "tea"%string 3%float 2); None])
           1).
  reflexivity.
Defined.

(** 'Product ... is out of stock' names the first product whose
    stock is 0 or less; it has an id, and every element before it is
    valid and in stock. *)
Theorem validateProducts_reports_first_out_of_stock :
  forall (products : option ProductArray) (n : string),
    Refactored.validateProducts products = Threw (ProductOutOfStock n) ->
    exists (ps : ProductArray) (k : nat) (product : Product.t),
      products = Some ps
      /\ nth_error ps k = Some (Some product)
      /\ Product.name product = n
      /\ Product.id product <> None
      /\ Product.stock product <= 0
      /\ Forall inStock (firstn k ps).
Proof.
  intros [ps|] n; unfold Refactored.validateProducts; [| discriminate].
  destruct (Nat.eqb (List.length ps) 0); [discriminate |].
  intros H.
  destruct (validateProductsFrom_out_of_stock ps 0 n H)
    as (k & product & Hrest).
  exists ps, k, product. split; [reflexivity | exact Hrest].
Qed.

Lemma validateProducts_reports_first_out_of_stock_witness :
  exists (ps : ProductArray) (k : nat) (product : Product.t),
    Some [Some (Product.mk (Some 7) "tea"%string 3%float 0)] = Some ps
    /\ nth_error ps k = Some (Some product)
    /\ Product.name product = "tea"%string
    /\ Product.id product <> None
    /\ Product.stock product <= 0
    /\ Forall inStock (firstn k ps).
Proof.
  apply (validateProducts_reports_first_out_of_stock
           (Some [Some (Product.mk (Some 7) "tea"%string 3%float 0)])
           "tea"%string).
  reflexivity.
Defined.

(** *** Totals *)

Lemma reduceTotal_null (d : PrimFloat.float) (products : ProductArray) :
  forall total : PrimFloat.float,
    In None products ->
    Refactored.reduceTotal d products total = Threw NullReference.
Proof.
  induction products as [|p rest IH]; intros total Hin; cbn.
  - destruct Hin.
  - destruct p as [product|]; [| reflexivity].
    apply IH. destruct Hin as [Hp|Hin]; [discriminate Hp | exact Hin].
Qed.

Lemma reduceTotal_present (d : PrimFloat.float) (products : ProductArray) :
  forall total : PrimFloat.float,
    ~ In None products ->
    Refactored.reduceTotal d products total
    = Returned (sumDiscounted d (presentProducts products) total).
Proof.
  induction products as [|p rest IH]; intros total Hnone; cbn.
  - reflexivity.
  - destruct p as [product|].
    + cbn. apply IH. intros Hin. apply Hnone. right. exact Hin.
    + exfalso. apply Hnone. left. reflexivity.
Qed.

Lemma inStock_not_null (products : ProductArray) :
  Forall inStock products -> ~ In None products.
Proof.
  intros Hall Hin.
  rewrite Forall_forall in Hall.
  destruct (Hall None Hin) as (product & Hp & _). discriminate Hp.
Qed.

(** [calculateOrderTotal] throws exactly when an element is null;
    otherwise it returns the discounted prices added from the left,
    starting at 0. *)
Theorem calculateOrderTotal_result :
  forall (products : ProductArray) (d : PrimFloat.float),
    (In None products ->
       Refactored.calculateOrderTotal products d = Threw NullReference)
    /\ (~ In None products ->
          Refactored.calculateOrderTotal products d
          = Returned (sumDiscounted d (presentProducts products) 0%float)).
Proof.
  intros products d. unfold Refactored.calculateOrderTotal. split.
  - apply reduceTotal_null.
  - apply reduceTotal_present.
Qed.

(** totals accumulate from left to right: the total of [ps ++ qs]
    is the reduction of [qs] started at the total of [ps]. *)
Theorem reduceTotal_app :
  forall (d : PrimFloat.float) (ps qs : ProductArray)
         (total : PrimFloat.float),
    Refactored.reduceTotal d (ps ++ qs) total
    = match Refactored.reduceTotal d ps total with
      | Returned t => Refactored.reduceTotal d qs t
      | Threw e => Threw e
      end.
Proof.
  intros d ps qs. induction ps as [|p rest IH]; intros total; cbn.
  - reflexivity.
  - destruct p as [product|]; [apply IH | reflexivity].
Qed.

(** The loop of the first version is validation followed by the
    reduction: summing throws nothing and writes nothing. *)
Lemma productLoop_split (d : PrimFloat.float) (products : ProductArray) :
  forall (i : nat) (total : PrimFloat.float),
    Smelly.productLoop d i products total
    = match Refactored.validateProductsFrom i products with
      | Returned _ => Refactored.reduceTotal d products total
      | Threw e => Threw e
      end.
Proof.
  induction products as [|p rest IH]; intros i total; cbn.
  - reflexivity.
  - destruct p as [product|]; [| reflexivity].
    destruct (Product.id product); [| reflexivity].
    destruct (Product.stock product <=? 0); [reflexivity |].
    apply IH.
Qed.

Lemma smelly_discount (level : SubscriptionLevel) :
  (if SubscriptionLevel_eqb level premium then 10%float
   else if SubscriptionLevel_eqb level enterprise then 20%float
   else 0%float)
  = Refactored.calculateDiscount level.
Proof. destruct level; reflexivity. Qed.

(** *** The two versions *)

(** the first version and the rewrite are the same procedure: for
    every user, array, environment and console they throw the same
    error or return the same order and user, and leave the same
    console. *)
Theorem order_versions_agree :
  forall (env : Env) (user : option User.t)
         (products : option ProductArray) (console : list LogLine),
    Smelly.processUserOrderAndSendNotification env user products console
    = Refactored.processUserOrderAndSendNotification env user products
        console.
Proof.
  intros env user products console.
  unfold Smelly.processUserOrderAndSendNotification,
    Refactored.processUserOrderAndSendNotification,
    Refactored.validateUser, Refactored.validateProducts,
    Refactored.calculateOrderTotal.
  destruct user as [u|]; [| reflexivity].
  cbv [bind call deref ret throw].
  destruct (falsyNumber (User.id u) || falsyString (User.email u));
    [reflexivity |].
  destruct products as [ps|]; [| reflexivity].
  destruct (Nat.eqb (List.length ps) 0); [reflexivity |].
  rewrite smelly_discount, productLoop_split.
  destruct (Refactored.validateProductsFrom 0 ps) as [[]|e];
    [| reflexivity].
  destruct (Refactored.reduceTotal _ ps _) as [total|e]; reflexivity.
Qed.

(** *** What a call of the rewrite does *)

Lemma process_user_rejected (env : Env) (user : option User.t)
    (products : option ProductArray) (console : list LogLine)
    (e : OrderError) :
  Refactored.validateUser user = Threw e ->
  Refactored.processUserOrderAndSendNotification env user products console
  = (Threw e, console).
Proof.
  intros Hu. unfold Refactored.processUserOrderAndSendNotification.
  cbv [bind call]. rewrite Hu. reflexivity.
Qed.

Lemma process_products_rejected (env : Env) (user : option User.t)
    (products : option ProductArray) (console : list LogLine)
    (e : OrderError) :
  Refactored.validateUser user = Returned tt ->
  Refactored.validateProducts products = Threw e ->
  Refactored.processUserOrderAndSendNotification env user products console
  = (Threw e, console).
Proof.
  intros Hu Hp. unfold Refactored.processUserOrderAndSendNotification.
  cbv [bind call]. rewrite Hu, Hp. reflexivity.
Qed.

Lemma process_after_validation (env : Env) (user : option User.t)
    (products : option ProductArray) (console : list LogLine) :
  Refactored.validateUser user = Returned tt ->
  Refactored.validateProducts products = Returned tt ->
  exists (u : User.t) (ps : ProductArray),
    validUser user u
    /\ products = Some ps /\ ps <> [] /\ Forall inStock ps
    /\ let total :=
         sumDiscounted
           (Refactored.calculateDiscount (User.subscriptionLevel u))
           (presentProducts ps) 0%float in
       Refactored.processUserOrderAndSendNotification env user products
         console
       = (Returned (Refactored.createOrder u ps total,
                    Refactored.updateUserLastLogin env u),
          console ++ orderLines env u total).
Proof.
  intros Hu Hp.
  destruct (proj1 (validateUser_ok_iff user) Hu) as (u & Hvalid).
  destruct (proj1 (validateProducts_ok_iff_aux products) Hp)
    as (ps & Hps & Hne & Hall).
  exists u, ps.
  split; [exact Hvalid |]. split; [exact Hps |].
  split; [exact Hne |]. split; [exact Hall |].
  intros total.
  unfold Refactored.processUserOrderAndSendNotification.
  cbv [bind call]. rewrite Hu, Hp.
  destruct Hvalid as (-> & _ & _). subst products.
  cbv [deref ret Refactored.calculateOrderTotal].
  rewrite (reduceTotal_present _ ps _ (inStock_not_null ps Hall)).
  fold total.
  unfold Refactored.sendEmailNotification, Refactored.sendSmsNotification,
    Refactored.logOrderAnalytics, orderLines.
  cbv [bind consoleLog ret Refactored.createOrder Order.totalAmount].
  destruct (User.subscriptionLevel u); cbn [SubscriptionLevel_eqb orb];
    repeat rewrite <- app_assoc; reflexivity.
Qed.

Lemma alice_valid (level : SubscriptionLevel) :
  validUser (Some (alice level)) (alice level).
Proof. repeat split; discriminate. Qed.

Lemma tea_and_cup_inStock :
  forall p : option Product.t, In p [Some tea; Some cup] -> inStock p.
Proof.
  intros p [<-|[<-|[]]]; eexists; (split; [reflexivity |]);
    split; try discriminate; cbn; lia.
Qed.

(** An accepted order: for a valid user and a non-empty array of valid
    products in stock, the call returns a pending order for that user
    with the same array and the discounted total, sets the user's
    [lastLoginDate] to the current date, and appends to the console the
    three e-mail lines, the SMS line unless the user is on the free
    level, and the analytics line. *)
Theorem order_accepted :
  forall (env : Env) (user : option User.t) (u : User.t)
         (products : option ProductArray) (ps : ProductArray)
         (console : list LogLine),
    validUser user u ->
    products = Some ps ->
    ps <> [] ->
    (forall p : option Product.t, In p ps -> inStock p) ->
    let total :=
      sumDiscounted
        (Refactored.calculateDiscount (User.subscriptionLevel u))
        (presentProducts ps) 0%float in
    Refactored.processUserOrderAndSendNotification env user products console
    = (Returned
         ({| Order.userId := User.id u;
             Order.products := ps;
             Order.totalAmount := total;
             Order.status := pending |},
          {| User.id := User.id u;
             User.name := User.name u;
             User.email := User.email u;
             User.age := User.age u;
             User.subscriptionLevel := User.subscriptionLevel u;
             User.lastLoginDate := now env |}),
       console ++ orderLines env u total).
Proof.
  intros env user u products ps console Hvalid Hps Hne Hall total.
  assert (Hu : Refactored.validateUser user = Returned tt)
    by (apply validateUser_ok_iff; exists u; exact Hvalid).
  assert (Hp : Refactored.validateProducts products = Returned tt).
  { apply validateProducts_ok_iff_aux. exists ps.
    repeat split; try assumption. apply Forall_forall. exact Hall. }
  destruct (process_after_validation env user products console Hu Hp)
    as (u0 & ps0 & (Hu0 & _) & Hps0 & _ & _ & Hrun).
  destruct Hvalid as (Huser & _).
  assert (u0 = u) by congruence.
  assert (ps0 = ps) by congruence.
  subst u0 ps0. exact Hrun.
Qed.

Lemma order_accepted_witness :
  Refactored.processUserOrderAndSendNotification sampleEnv
    (Some (alice premium)) (Some [Some tea; Some cup]) []
  = (Returned
       (Order.mk 1 [Some tea; Some cup] 27%float pending,
        User.mk 1 "Alice"%string "alice@example.org"%string 30 premium
          1700000000000),
     [EmailTo "alice@example.org"%string; EmailSubject 0.5%float;
      EmailBody "Alice"%string 27%float; SmsMessage 27%float;
      AnalyticsLine 1 27%float]).
Proof.
  apply (order_accepted sampleEnv (Some (alice premium)) (alice premium)
           (Some [Some tea; Some cup]) [Some tea; Some cup] []).
  - apply alice_valid.
  - reflexivity.
  - discriminate.
  - apply tea_and_cup_inStock.
Defined.

Lemma validateProductsFrom_never_null_reference (products : ProductArray) :
  forall i : nat,
    Refactored.validateProductsFrom i products <> Threw NullReference.
Proof.
  induction products as [|p rest IH]; intros i; cbn; [discriminate |].
  destruct p as [product|]; [| discriminate].
  destruct (Product.id product); [| discriminate].
  destruct (Product.stock product <=? 0); [discriminate | apply IH].
Qed.

Lemma validateProducts_never_null_reference
    (products : option ProductArray) :
  Refactored.validateProducts products <> Threw NullReference.
Proof.
  unfold Refactored.validateProducts.
  destruct products as [ps|]; [| discriminate].
  destruct (Nat.eqb (List.length ps) 0); [discriminate |].
  apply validateProductsFrom_never_null_reference.
Qed.

(** A rejected order: when the call throws, the console is as it was,
    the error is the one [validateUser] threw, or else the one
    [validateProducts] threw for a valid user, and it is never the
    [TypeError] of a null reference. *)
Theorem order_rejected :
  forall (env : Env) (user : option User.t)
         (products : option ProductArray) (console : list LogLine)
         (e : OrderError),
    fst (Refactored.processUserOrderAndSendNotification env user products
           console) = Threw e ->
    snd (Refactored.processUserOrderAndSendNotification env user products
           console) = console
    /\ e <> NullReference
    /\ (Refactored.validateUser user = Threw e
        \/ (Refactored.validateUser user = Returned tt
            /\ Refactored.validateProducts products = Threw e)).
Proof.
  intros env user products console e.
  destruct (Refactored.validateUser user) as [[]|eu] eqn:Hu.
  - destruct (Refactored.validateProducts products) as [[]|ep] eqn:Hp.
    + destruct (process_after_validation env user products console Hu Hp)
        as (u & ps & _ & _ & _ & _ & Hrun).
      cbv zeta in Hrun. rewrite Hrun. discriminate.
    + rewrite (process_products_rejected env user products console ep Hu Hp).
      cbn [fst snd]. intros H. injection H as <-.
      repeat split.
      * intros ->. exact (validateProducts_never_null_reference _ Hp).
      * right. split; reflexivity.
  - rewrite (process_user_rejected env user products console eu Hu).
    cbn [fst snd]. intros H. injection H as <-.
    repeat split.
    + rewrite (validateUser_throws user eu Hu). discriminate.
    + left. reflexivity.
Qed.

Lemma order_rejected_witness :
  snd (Refactored.processUserOrderAndSendNotification sampleEnv
         (Some (alice free)) (Some [Some tea; None]) []) = []
  /\ InvalidProductAtIndex 1 <> NullReference
  /\ (Refactored.validateUser (Some (alice free))
      = Threw (InvalidProductAtIndex 1)
      \/ (Refactored.validateUser (Some (alice free)) = Returned tt
          /\ Refactored.validateProducts (Some [Some tea; None])
             = Threw (InvalidProductAtIndex 1))).
Proof.
  apply (order_rejected sampleEnv (Some (alice free))
           (Some [Some tea; None]) [] (InvalidProductAtIndex 1)).
  reflexivity.
Defined.

(** The user is checked first: an invalid user is reported as 'Invalid
    user' whatever the products are, and nothing is written. *)
Theorem invalid_user_reported_first :
  forall (env : Env) (user : option User.t)
         (products : option ProductArray) (console : list LogLine),
    (forall u : User.t, ~ validUser user u) ->
    Refactored.processUserOrderAndSendNotification env user products console
    = (Threw InvalidUser, console).
Proof.
  intros env user products console Hinvalid.
  destruct (Refactored.validateUser user) as [[]|e] eqn:Hu.
  - apply validateUser_ok_iff in Hu. destruct Hu as (u & Hu).
    destruct (Hinvalid u Hu).
  - rewrite (process_user_rejected env user products console e Hu).
    rewrite (validateUser_throws user e Hu). reflexivity.
Qed.

Lemma invalid_user_reported_first_witness :
  Refactored.processUserOrderAndSendNotification sampleEnv
    (Some (User.mk 0 "Bob"%string "bob@example.org"%string 41 premium 0))
    None []
  = (Threw InvalidUser, []).
Proof.
  apply invalid_user_reported_first.
  intros u (Hu & Hid & _). injection Hu as <-. apply Hid. reflexivity.
Defined.

(** An accepted order writes an SMS line exactly when the user is not
    on the free level. *)
Theorem sms_only_for_paying_users :
  forall (env : Env) (user : option User.t)
         (products : option ProductArray)
         (order : Order.t) (u' : User.t) (console' : list LogLine),
    Refactored.processUserOrderAndSendNotification env user products []
    = (Returned (order, u'), console') ->
    ((exists total : PrimFloat.float, In (SmsMessage total) console') <->
     User.subscriptionLevel u' <> free).
Proof.
  intros env user products order u' console' Hrun.
  destruct (Refactored.validateUser user) as [[]|eu] eqn:Hu.
  - destruct (Refactored.validateProducts products) as [[]|ep] eqn:Hp.
    + destruct (process_after_validation env user products [] Hu Hp)
        as (u & ps & _ & _ & _ & _ & Hok).
      cbv zeta in Hok. rewrite Hok in Hrun.
      injection Hrun as <- <- <-.
      unfold orderLines. cbn [Refactored.updateUserLastLogin
                               User.subscriptionLevel app].
      destruct (User.subscriptionLevel u); cbn [app In]; split.
      * intros (t & [H|[H|[H|[H|[]]]]]); discriminate H.
      * intros H. destruct H. reflexivity.
      * discriminate.
      * intros _. eexists. do 3 right. left. reflexivity.
      * discriminate.
      * intros _. eexists. do 3 right. left. reflexivity.
    + rewrite (process_products_rejected env user products [] ep Hu Hp)
        in Hrun.
      discriminate Hrun.
  - rewrite (process_user_rejected env user products [] eu Hu) in Hrun.
    discriminate Hrun.
Qed.

Lemma sms_only_for_paying_users_witness :
  (exists total : PrimFloat.float,
      In (SmsMessage total)
        [EmailTo "alice@example.org"%string; EmailSubject 0.5%float;
         EmailBody "Alice"%string 24%float; SmsMessage 24%float;
         AnalyticsLine 1 24%float])
  <-> enterprise <> free.
Proof.
  apply (sms_only_for_paying_users sampleEnv (Some (alice enterprise))
           (Some [Some tea; Some cup])
           (Order.mk 1 [Some tea; Some cup] 24%float pending)
           (User.mk 1 "Alice"%string "alice@example.org"%string 30
              enterprise 1700000000000)).
  reflexivity.
Defined.

End OrderFacts.

(** ** Item quality: further properties of the two procedures *)

Module QualityFacts.
Import Refactored.

Lemma refactored_frame (item : Item) :
  name (updateItemQuality item) = name item
  /\ sellIn (updateItemQuality item) = sellIn item.
Proof.
  unfold updateItemQuality. cbv zeta.
  rewrite !set_quality_name, !set_quality_sellIn. split; reflexivity.
Qed.

Lemma iter_frame (n : nat) (item : Item) :
  name (Nat.iter n updateItemQuality item) = name item
  /\ sellIn (Nat.iter n updateItemQuality item) = sellIn item.
Proof.
  induction n as [|n [IHname IHsell]].
  - split; reflexivity.
  - rewrite Nat.iter_succ.
    destruct (refactored_frame (Nat.iter n updateItemQuality item))
      as [Hname Hsell].
    split; congruence.
Qed.

(** The single-function version also keeps quality in [0,50]. *)
Theorem smelly_quality_stays_in_range :
  forall item : Item,
    0 <= quality item <= 50 ->
    0 <= quality (Smelly.updateItemQuality item) <= 50.
Proof. rules_by_cases. Qed.

Lemma smelly_quality_stays_in_range_witness :
  0 <= quality (Smelly.updateItemQuality (sulfuras (-1) 1)) <= 50.
Proof.
  apply (smelly_quality_stays_in_range (sulfuras (-1) 1)). cbn. lia.
Defined.

(** Unless the item is an expired pass, one call of the refactored
    procedure lowers a safe-integer quality by at most 1 and raises it
    by at most 2. *)
Theorem quality_step_bounds :
  forall item : Item,
    shouldLoseAllQualityAfterEvent item = false ->
    safeInteger (quality item) ->
    quality item - 1 <= quality (updateItemQuality item) <= quality item + 2.
Proof. rules_by_cases. Qed.

Lemma quality_step_bounds_witness :
  10 - 1 <= quality (updateItemQuality (backstagePass 4 10)) <= 10 + 2.
Proof.
  apply (quality_step_bounds (backstagePass 4 10)); [reflexivity |].
  unfold safeInteger, MAX_SAFE_INTEGER. cbn. lia.
Defined.

(** Unless the item is an expired pass, one call of the single-function
    version changes a safe-integer quality by at most 1. *)
Theorem smelly_step_bounds :
  forall item : Item,
    shouldLoseAllQualityAfterEvent item = false ->
    safeInteger (quality item) ->
    quality item - 1 <= quality (Smelly.updateItemQuality item)
    <= quality item + 1.
Proof. rules_by_cases. Qed.

Lemma smelly_step_bounds_witness :
  10 - 1 <= quality (Smelly.updateItemQuality (backstagePass 4 10))
  <= 10 + 1.
Proof.
  apply (smelly_step_bounds (backstagePass 4 10)); [reflexivity |].
  unfold safeInteger, MAX_SAFE_INTEGER. cbn. lia.
Defined.

(** Which rules can hold for the same item: the decrease rule excludes
    the three others, the accelerated increase implies the increase rule
    and excludes the collapse rule. *)
Theorem rules_compatibility :
  forall item : Item,
    (shouldDecreaseQuality item = true ->
       shouldIncreaseQuality item = false
       /\ shouldIncreaseQualityMoreRapidly item = false
       /\ shouldLoseAllQualityAfterEvent item = false)
    /\ (shouldIncreaseQualityMoreRapidly item = true ->
          shouldIncreaseQuality item = true
          /\ shouldLoseAllQualityAfterEvent item = false).
Proof. rules_by_cases. Qed.

(** The items of safe-integer quality whose quality one call of the
    refactored procedure leaves as it is: Sulfuras; a generic item at 0
    or below; Aged Brie or a pending pass at 50 or above; an expired
    pass at 0. *)
Theorem quality_unchanged_iff :
  forall item : Item,
    safeInteger (quality item) ->
    quality (updateItemQuality item) = quality item <->
    isSulfuras item = true
    \/ (isSpecialItem item = false /\ quality item <= 0)
    \/ (isAgedBrie item = true /\ 50 <= quality item)
    \/ (isBackstagePass item = true
        /\ 0 <= sellIn item /\ 50 <= quality item)
    \/ (isBackstagePass item = true
        /\ sellIn item < 0 /\ quality item = 0).
Proof.
  rules_by_cases.
  all: try (repeat match goal with
                   | H : _ \/ _ |- _ => destruct H
                   | H : _ /\ _ |- _ => destruct H
                   end; try discriminate; lia).
  all: try (left; reflexivity).
  all: try (right; left; split; [reflexivity | lia]).
  all: try (right; right; left; split; [reflexivity | lia]).
  all: try (right; right; right; left; repeat split; lia).
  all: try (right; right; right; right; repeat split; lia).
Qed.

Lemma quality_unchanged_iff_witness :
  quality (updateItemQuality (agedBrie 3 50)) = quality (agedBrie 3 50)
  <-> isSulfuras (agedBrie 3 50) = true
      \/ (isSpecialItem (agedBrie 3 50) = false
          /\ quality (agedBrie 3 50) <= 0)
      \/ (isAgedBrie (agedBrie 3 50) = true
          /\ 50 <= quality (agedBrie 3 50))
      \/ (isBackstagePass (agedBrie 3 50) = true
          /\ 0 <= sellIn (agedBrie 3 50) /\ 50 <= quality (agedBrie 3 50))
      \/ (isBackstagePass (agedBrie 3 50) = true
          /\ sellIn (agedBrie 3 50) < 0 /\ quality (agedBrie 3 50) = 0).
Proof.
  apply (quality_unchanged_iff (agedBrie 3 50)).
  unfold safeInteger, MAX_SAFE_INTEGER. cbn. lia.
Defined.

(** *** Repeated calls *)

(** After [n] calls an Aged Brie that started at a safe-integer
    quality of 50 or below has gained [n], capped at 50. *)
Theorem aged_brie_after_n_calls :
  forall (n : nat) (item : Item),
    name item = AGED_BRIE ->
    safeInteger (quality item) ->
    quality item <= 50 ->
    quality (Nat.iter n updateItemQuality item)
    = Z.min 50 (quality item + Z.of_nat n).
Proof.
  intros n item Hname _ Hq.
  induction n as [|n IH].
  - cbn [Nat.iter nat_rect]. lia.
  - rewrite Nat.iter_succ, RefactoredFacts.agedBrie_quality.
    + rewrite IH.
      destruct (Z.ltb_spec (Z.min 50 (quality item + Z.of_nat n)) 50); lia.
    + apply isAgedBrie_name.
      rewrite (proj1 (iter_frame n item)). exact Hname.
Qed.

Lemma aged_brie_after_n_calls_witness :
  quality (Nat.iter 7 updateItemQuality (agedBrie 2 45))
  = Z.min 50 (45 + Z.of_nat 7).
Proof.
  apply (aged_brie_after_n_calls 7 (agedBrie 2 45));
    [reflexivity | unfold safeInteger, MAX_SAFE_INTEGER; cbn; lia | cbn; lia].
Defined.

(** After [n] calls a generic item that started at a safe-integer
    quality of 0 or above has lost [n], stopping at 0. *)
Theorem generic_item_after_n_calls :
  forall (n : nat) (item : Item),
    isSpecialItem item = false ->
    safeInteger (quality item) ->
    0 <= quality item ->
    quality (Nat.iter n updateItemQuality item)
    = Z.max 0 (quality item - Z.of_nat n).
Proof.
  intros n item Hgen _ Hq.
  induction n as [|n IH].
  - cbn [Nat.iter nat_rect]. lia.
  - rewrite Nat.iter_succ, RefactoredFacts.generic_quality.
    + rewrite IH, Z.gtb_ltb.
      destruct (Z.ltb_spec 0 (Z.max 0 (quality item - Z.of_nat n))); lia.
    + unfold isGeneric, isSpecialItem, isAgedBrie, isBackstagePass,
        isSulfuras in *.
      rewrite (proj1 (iter_frame n item)), Hgen. reflexivity.
Qed.

Lemma generic_item_after_n_calls_witness :
  quality (Nat.iter 5 updateItemQuality (normalItem 9 3))
  = Z.max 0 (3 - Z.of_nat 5).
Proof.
  apply (generic_item_after_n_calls 5 (normalItem 9 3));
    [reflexivity | unfold safeInteger, MAX_SAFE_INTEGER; cbn; lia | cbn; lia].
Defined.

(** After [n] calls a pass whose [sellIn] is 0 or more and that started
    at a safe-integer quality of 50 or below has gained [2 * n], capped
    at 50: the procedure never changes [sellIn], so the pass never
    expires by itself. *)
Theorem pending_pass_after_n_calls :
  forall (n : nat) (item : Item),
    name item = BACKSTAGE ->
    0 <= sellIn item ->
    safeInteger (quality item) ->
    quality item <= 50 ->
    quality (Nat.iter n updateItemQuality item)
    = Z.min 50 (quality item + 2 * Z.of_nat n)
    /\ sellIn (Nat.iter n updateItemQuality item) = sellIn item.
Proof.
  intros n item Hname Hsell _ Hq.
  split; [| apply iter_frame].
  induction n as [|n IH].
  - cbn [Nat.iter nat_rect]. lia.
  - rewrite Nat.iter_succ, RefactoredFacts.pending_pass_quality.
    + rewrite IH.
      destruct (Z.ltb_spec (Z.min 50 (quality item + 2 * Z.of_nat n)) 49);
        destruct (Z.ltb_spec (Z.min 50 (quality item + 2 * Z.of_nat n)) 50);
        lia.
    + apply isBackstagePass_name.
      rewrite (proj1 (iter_frame n item)). exact Hname.
    + rewrite (proj2 (iter_frame n item)). exact Hsell.
Qed.

Lemma pending_pass_after_n_calls_witness :
  quality (Nat.iter 3 updateItemQuality (backstagePass 0 45))
  = Z.min 50 (45 + 2 * Z.of_nat 3)
  /\ sellIn (Nat.iter 3 updateItemQuality (backstagePass 0 45)) = 0.
Proof.
  apply (pending_pass_after_n_calls 3 (backstagePass 0 45));
    [reflexivity | cbn; lia
    | unfold safeInteger, MAX_SAFE_INTEGER; cbn; lia | cbn; lia].
Defined.

Lemma expired_pass_record (item : Item) :
  shouldLoseAllQualityAfterEvent item = true ->
  updateItemQuality item = set_quality item 0.
Proof. revert item. rules_by_cases. Qed.

Lemma sulfuras_record (item : Item) :
  isSulfuras item = true -> updateItemQuality item = item.
Proof. revert item. rules_by_cases. Qed.

(** The refactored procedure is idempotent on expired passes and leaves
    a Sulfuras record exactly as it is. *)
Theorem expired_pass_and_sulfuras_stable :
  forall item : Item,
    (shouldLoseAllQualityAfterEvent item = true ->
       updateItemQuality (updateItemQuality item) = updateItemQuality item)
    /\ (isSulfuras item = true -> updateItemQuality item = item).
Proof.
  intros item. split.
  - intros Hexpired.
    rewrite (expired_pass_record item Hexpired).
    apply (expired_pass_record (set_quality item 0)).
    exact Hexpired.
  - apply sulfuras_record.
Qed.

Lemma expired_pass_and_sulfuras_stable_witness :
  updateItemQuality (updateItemQuality (backstagePass (-2) 17))
  = updateItemQuality (backstagePass (-2) 17)
  /\ updateItemQuality (sulfuras (-5) 80) = sulfuras (-5) 80.
Proof.
  split.
  - refine (proj1 (expired_pass_and_sulfuras_stable
                     (backstagePass (-2) 17)) _).
    reflexivity.
  - refine (proj2 (expired_pass_and_sulfuras_stable (sulfuras (-5) 80)) _).
    reflexivity.
Defined.

End QualityFacts.
